(** * Ruralis API: stock, expenses and cost report

    A shallow embedding of the two FastAPI applications of the repository,

    - [Legacy]  : [src/main.py]          (users, agrochemicals, one cost field),
    - [Ruralis] : [src/ruralis/main.py]  (agrochemicals with a currency, costs in
                  ARS and USD, the exchange-rate lookup and the cost report),

    and the properties of the specification proved (or refuted) on them.

    Modelling conventions.

    - A table is a finite map from the integer primary key to the row
      ([gmap Z row]); [query(T).filter(T.id == i).first()] is the lookup [!! i].
      A row inserted without an id gets the largest id in use plus one (1 in an
      empty table), as SQLite does for an [INTEGER PRIMARY KEY].
    - A request works on a [Session]: reads and writes go to the working copy,
      [commit] makes the working copy the stored one, and whatever is not
      committed when the handler returns or raises is dropped ([get_db] closes
      the session in its [finally]).
    - Python exceptions are the [Raise] results of the [res] monad.
    - Python [float]s are modelled by exact rationals ([Q]): the statements
      below give a stored value as the expression the code computes and compare
      values as the code compares them; rounding, infinities and NaN are
      outside the model.  JSON integers and floats are both [PyNum]; an integer
      too large for a float makes [float * int] raise ([float_limit]).
    - An id in a request is taken inside SQLite's 64-bit INTEGER range
      ([int64]); outside it the driver raises [OverflowError] before any row is
      looked up, which the handlers do not model: what is stated about an id
      that is not stored carries that range as a hypothesis.
    - What the handlers read from outside is a parameter: the text of
      [datetime.now()] and the outcome of the HTTP call to the exchange-rate
      service, whose body is an arbitrary JSON value ([pyval]). *)

From Stdlib Require Import QArith Qabs ZArith String Lia Lqa.
From stdpp Require Import base option gmap strings fin_maps.

Open Scope Q_scope.

(** ** Exceptions and results *)

Inductive exc :=
| ConnectionError          (* requests.get fails *)
| JSONDecodeError          (* response.json() on a body that is not JSON *)
| KeyError (k : string)    (* d[k] on a dict without k *)
| TypeError                (* subscripting or multiplying a value of the wrong type *)
| OverflowError            (* an int too large to convert to a float *)
| AttributeError           (* .get on a value that is not a dict *)
| NameError (n : string)   (* a global name that is not bound *)
| IntegrityError.          (* UNIQUE constraint of the store *)

Inductive res (A : Type) :=
| Ok (a : A)
| Raise (e : exc).
Arguments Ok {A} a.
Arguments Raise {A} e.

#[export] Instance res_ret : MRet res := λ A a, Ok a.
#[export] Instance res_bind : MBind res := λ A B k m,
  match m with
  | Ok a => k a
  | Raise e => Raise e
  end.

(** ** Python values: what [response.json()] can return *)

#[warnings="-register-all"]
Inductive pyval :=
| PyNone
| PyBool (b : bool)
| PyNum (x : Q)                       (* int or float *)
| PyStr (s : string)
| PyList (l : list pyval)
| PyDict (d : gmap string pyval).

(** [v[k]] for a string key [k]. *)
Definition py_getitem (v : pyval) (k : string) : res pyval :=
  match v with
  | PyDict d =>
      match d !! k with
      | Some x => Ok x
      | None => Raise (KeyError k)
      end
  | _ => Raise TypeError
  end.

(** [v.get(k, default)]: only a dict has the method. *)
Definition py_get (v : pyval) (k : string) (default : pyval) : res pyval :=
  match v with
  | PyDict d =>
      match d !! k with
      | Some x => Ok x
      | None => Ok default
      end
  | _ => Raise AttributeError
  end.

(** The first magnitude that has no finite double: every Python float is
    below it, and an int at or above it cannot be converted to a float. *)
Definition float_limit : Q := inject_Z (2 ^ 1024 - 2 ^ 970).

(** [x * v] for a float [x]: a float or a bool multiplies, an int is converted
    to a float first and raises [OverflowError] when it is too large (a number
    at or beyond [float_limit] can only be an int), anything else raises
    [TypeError]. *)
Definition float_mul (x : Q) (v : pyval) : res Q :=
  match v with
  | PyNum y =>
      if Qlt_le_dec (Qabs y) float_limit then Ok (x * y) else Raise OverflowError
  | PyBool b => Ok (x * (if b then 1 else 0))
  | _ => Raise TypeError
  end.

(** [v] is a number for the purposes of [*]. *)
Definition py_number (v : pyval) : option Q :=
  match v with
  | PyNum y => Some y
  | PyBool b => Some (if b then 1 else 0)
  | _ => None
  end.

(** ** The store session *)

Section session.
Context {DB : Type}.

Record Session := mkSession { committed : DB; working : DB }.

Definition M (A : Type) : Type := Session → res A * Session.

Definition m_ret {A} (a : A) : M A := λ s, (Ok a, s).

Definition m_bind {A B} (k : A → M B) (m : M A) : M B := λ s,
  match m s with
  | (Ok a, s') => k a s'
  | (Raise e, s') => (Raise e, s')
  end.

Definition raise {A} (e : exc) : M A := λ s, (Raise e, s).

(** Read the working copy. *)
Definition query {A} (f : DB → A) : M A := λ s, (Ok (f (working s)), s).

(** Change the working copy ([db.add], [db.delete], an attribute assignment
    on a loaded row). *)
Definition update (f : DB → DB) : M unit := λ s,
  (Ok tt, mkSession (committed s) (f (working s))).

(** [db.commit()]. *)
Definition commit : M unit := λ s,
  (Ok tt, mkSession (working s) (working s)).

(** The handler's part of a request: [get_db] opens a session on the store,
    the handler runs, the session is closed; the store is what was committed.
    What the framework does with the value returned (encoding the body) comes
    after it and is not part of it. *)
Definition request {A} (h : M A) (db : DB) : res A * DB :=
  let '(r, s) := h (mkSession db db) in (r, committed s).
End session.
Arguments Session : clear implicits.
Arguments M : clear implicits.

#[export] Instance M_ret {DB} : MRet (M DB) := λ A, m_ret.
#[export] Instance M_bind {DB} : MBind (M DB) := λ A B, m_bind.

(** ** Primary keys *)

Definition max_id {A} (t : gmap Z A) : Z :=
  map_fold (λ k _ acc, Z.max k acc) 0%Z t.

(** The id given to a row inserted without one. *)
Definition next_id {A} (t : gmap Z A) : Z := (max_id t + 1)%Z.

(** The integers that SQLite stores and that its driver accepts as a query
    parameter. *)
Definition int64 (i : Z) : Prop := (- 2 ^ 63 ≤ i < 2 ^ 63)%Z.

(** ** [src/main.py] *)

Module Legacy.

Record User := mkUser { name : string; email : string }.

Record Agroquimico := mkAgroquimico {
  nombre : string;
  cantidad : Q;
  unidad : string;
  precio_unitario : Q
}.

Record GastoAgroquimico := mkGasto {
  agroquimico_id : Z;
  cantidad_aplicada : Q;
  costo_total : Q;
  fecha : string
}.

Record DB := mkDB {
  users : gmap Z User;
  agroquimicos : gmap Z Agroquimico;
  gastos : gmap Z GastoAgroquimico
}.

Definition set_users (f : gmap Z User → gmap Z User) (db : DB) : DB :=
  mkDB (f (users db)) (agroquimicos db) (gastos db).
Definition set_agroquimicos (f : gmap Z Agroquimico → gmap Z Agroquimico) (db : DB) : DB :=
  mkDB (users db) (f (agroquimicos db)) (gastos db).
Definition set_gastos (f : gmap Z GastoAgroquimico → gmap Z GastoAgroquimico) (db : DB) : DB :=
  mkDB (users db) (agroquimicos db) (f (gastos db)).
Definition set_cantidad (q : Q) (a : Agroquimico) : Agroquimico :=
  mkAgroquimico (nombre a) q (unidad a) (precio_unitario a).

(** Request bodies. *)
Definition UserCreate := User.
Definition AgroquimicoCreate := Agroquimico.
Record AplicarAgroquimicoRequest := mkAplicar { dosis_por_ha : Q; hectareas : Q }.

(** Response bodies. *)
Record StockInfo := mkStock { s_id : Z; s_nombre : string; stock_restante : Q }.
Record GastoInfo := mkGastoInfo {
  g_id : Z; g_cantidad_aplicada : Q; g_costo_total : Q; g_fecha : string
}.

Inductive response :=
| UsuarioCreado (id : Z) (u : User)              (* message "Usuario creado" *)
| UsersList (us : gmap Z User)
| AgroquimicoAgregado (id : Z) (a : Agroquimico) (* message "Agroquímico agregado" *)
| AgroquimicosList (t : gmap Z Agroquimico)
| AplicacionRegistrada (a : StockInfo) (g : GastoInfo)
| GastosList (t : gmap Z GastoAgroquimico)
| Message (m : string)                           (* {"message": m} *)
| Error (m : string).                            (* {"error": m} *)

(** [email] is declared [unique=True]: the insert fails when the e-mail is
    already stored. *)
Definition email_taken (e : string) (t : gmap Z User) : Prop :=
  map_Exists (λ _ u, email u = e) t.

Definition create_user (user : UserCreate) : M DB response :=
  let db_user := mkUser (name user) (email user) in
  id ← query (λ db, next_id (users db));
  taken ← query (λ db, bool_decide (email_taken (email db_user) (users db)));
  update (set_users (insert id db_user));;
  (if taken : bool then raise IntegrityError else commit);;
  mret (UsuarioCreado id db_user).

Definition get_users : M DB response :=
  us ← query users;
  mret (UsersList us).

Definition delete_user (user_id : Z) : M DB response :=
  db_user ← query (λ db, users db !! user_id);
  match db_user with
  | None => mret (Error "Usuario no encontrado")
  | Some _ =>
      update (set_users (delete user_id));;
      commit;;
      mret (Message "Usuario eliminado")
  end.

Definition create_agroquimico (agroquimico : AgroquimicoCreate) : M DB response :=
  let db_agroquimico := agroquimico in
  id ← query (λ db, next_id (agroquimicos db));
  update (set_agroquimicos (insert id db_agroquimico));;
  commit;;
  mret (AgroquimicoAgregado id db_agroquimico).

Definition get_agroquimicos : M DB response :=
  t ← query agroquimicos;
  mret (AgroquimicosList t).

Definition delete_agroquimico (agroquimico_id : Z) : M DB response :=
  db_agroquimico ← query (λ db, agroquimicos db !! agroquimico_id);
  match db_agroquimico with
  | None => mret (Error "Agroquímico no encontrado")
  | Some _ =>
      update (set_agroquimicos (delete agroquimico_id));;
      commit;;
      mret (Message "Agroquímico eliminado")
  end.

(** [now] is the text of [datetime.now().strftime(...)]. *)
Definition aplicar_agroquimico (now : string) (agroquimico_id : Z)
    (request : AplicarAgroquimicoRequest) : M DB response :=
  db_agroquimico ← query (λ db, agroquimicos db !! agroquimico_id);
  match db_agroquimico with
  | None => mret (Error "Agroquímico no encontrado")
  | Some a =>
      let cantidad_necesaria := dosis_por_ha request * hectareas request in
      if Qlt_le_dec (cantidad a) cantidad_necesaria then
        mret (Error "Stock insuficiente")
      else
        let a := set_cantidad (cantidad a - cantidad_necesaria) a in
        update (set_agroquimicos (insert agroquimico_id a));;
        let costo_total := precio_unitario a * (cantidad_necesaria / 1000) in
        let nuevo_gasto := mkGasto agroquimico_id cantidad_necesaria costo_total now in
        gasto_id ← query (λ db, next_id (gastos db));
        update (set_gastos (insert gasto_id nuevo_gasto));;
        commit;;
        mret (AplicacionRegistrada
                (mkStock agroquimico_id (nombre a) (cantidad a))
                (mkGastoInfo gasto_id (cantidad_aplicada nuevo_gasto)
                   (Legacy.costo_total nuevo_gasto) (fecha nuevo_gasto)))
  end.

Definition get_gastos : M DB response :=
  t ← query gastos;
  mret (GastosList t).

End Legacy.

(** ** [src/ruralis/main.py] *)

(** The world outside a request: the HTTP exchange with the exchange-rate
    service and the clock. *)
Record Response := mkResponse { json : res pyval }.
Record World := mkWorld { requests_get : res Response; now : string }.

Definition lift {DB A} (r : res A) : M DB A := λ s, (r, s).

(** SQL [SUM] over a column: NULL ([None]) on a table without rows. *)
Definition sql_sum {A} (col : A → Q) (t : gmap Z A) : option Q :=
  if decide (t = ∅) then None
  else Some (map_fold (λ _ row acc, col row + acc) 0 t).

(** [x or 0] for [x] a float or [None]. *)
Definition or_0 (x : option Q) : Q :=
  match x with
  | Some v => if Qeq_bool v 0 then 0 else v
  | None => 0
  end.

Module Ruralis.

Record User := mkUser { name : string; email : string }.

Record Agroquimico := mkAgroquimico {
  nombre : string;
  cantidad : Q;
  unidad : string;
  precio_unitario : Q;
  moneda : string
}.

Record GastoAgroquimico := mkGasto {
  agroquimico_id : Z;
  cantidad_aplicada : Q;
  costo_total_ars : Q;
  costo_total_usd : Q;
  fecha : string
}.

Record DB := mkDB {
  users : gmap Z User;
  agroquimicos : gmap Z Agroquimico;
  gastos : gmap Z GastoAgroquimico
}.

Definition set_agroquimicos (f : gmap Z Agroquimico → gmap Z Agroquimico) (db : DB) : DB :=
  mkDB (users db) (f (agroquimicos db)) (gastos db).
Definition set_gastos (f : gmap Z GastoAgroquimico → gmap Z GastoAgroquimico) (db : DB) : DB :=
  mkDB (users db) (agroquimicos db) (f (gastos db)).
Definition set_cantidad (q : Q) (a : Agroquimico) : Agroquimico :=
  mkAgroquimico (nombre a) q (unidad a) (precio_unitario a) (moneda a).

(** Request bodies ([moneda] defaults to "ARS" when the body omits it). *)
Definition AgroquimicoCreate := Agroquimico.
Record AplicarAgroquimicoRequest := mkAplicar { dosis : Q; hectareas : Q }.

(** Response bodies. *)
Record StockInfo := mkStock { s_id : Z; s_nombre : string; stock_restante : Q }.
Record GastoInfo := mkGastoInfo {
  g_id : Z; g_cantidad_aplicada : Q;
  g_costo_total_ars : Q; g_costo_total_usd : Q; g_fecha : string
}.

Inductive response :=
| AgroquimicoAgregado (id : Z) (a : Agroquimico) (* message "Agroquímico agregado" *)
| AgroquimicosList (t : gmap Z Agroquimico)
| AplicacionRegistrada (a : StockInfo) (g : GastoInfo)
| GastosList (t : gmap Z GastoAgroquimico)
| CostoTotal (total_ars total_usd : Q)
| Error (m : string).                            (* {"error": m} *)

(** The names bound at module level when a request is served: the imports,
    the assignments, the classes and the functions of the file.  No Python
    builtin is called [func]. *)
Definition module_globals : gset string :=
  list_to_set
    [ "FastAPI"; "Depends"; "BaseModel"; "create_engine"; "Column"; "Integer";
      "String"; "Float"; "declarative_base"; "sessionmaker"; "Session";
      "datetime"; "requests"; "app"; "DATABASE_URL"; "engine"; "SessionLocal";
      "Base"; "User"; "Agroquimico"; "GastoAgroquimico"; "get_db";
      "AgroquimicoCreate"; "AplicarAgroquimicoRequest"; "obtener_tipo_cambio";
      "create_agroquimico"; "get_agroquimicos"; "aplicar_agroquimico";
      "get_gastos"; "get_costo_total" ].

(** Evaluating a global name. *)
Definition global (globals : gset string) (n : string) : M DB unit :=
  if decide (n ∈ globals) then mret tt else raise (NameError n).

(** The [try] body, and the function with its bare [except]. *)
Definition obtener_tipo_cambio_try (w : World) : res pyval :=
  response ← requests_get w;
  data ← json response;
  rates ← py_getitem data "rates";
  py_get rates "USD" (PyNum 0.001).

Definition obtener_tipo_cambio (w : World) : pyval :=
  match obtener_tipo_cambio_try w with
  | Ok v => v
  | Raise _ => PyNum 0.001
  end.

Definition create_agroquimico (agroquimico : AgroquimicoCreate) : M DB response :=
  let db_agroquimico := agroquimico in
  id ← query (λ db, next_id (agroquimicos db));
  update (set_agroquimicos (insert id db_agroquimico));;
  commit;;
  mret (AgroquimicoAgregado id db_agroquimico).

Definition get_agroquimicos : M DB response :=
  t ← query agroquimicos;
  mret (AgroquimicosList t).

Definition aplicar_agroquimico (w : World) (agroquimico_id : Z)
    (request : AplicarAgroquimicoRequest) : M DB response :=
  db_agroquimico ← query (λ db, agroquimicos db !! agroquimico_id);
  match db_agroquimico with
  | None => mret (Error "Agroquímico no encontrado")
  | Some a =>
      let cantidad_aplicada := dosis request * hectareas request in
      if Qlt_le_dec (cantidad a) cantidad_aplicada then
        mret (Error "Stock insuficiente")
      else
        let a := set_cantidad (cantidad a - cantidad_aplicada) a in
        update (set_agroquimicos (insert agroquimico_id a));;
        let costo_total_ars := precio_unitario a * cantidad_aplicada in
        let tipo_cambio := obtener_tipo_cambio w in
        costo_total_usd ←
          (if bool_decide (moneda a = "ARS")
           then lift (float_mul costo_total_ars tipo_cambio)
           else mret costo_total_ars);
        let nuevo_gasto :=
          mkGasto agroquimico_id cantidad_aplicada costo_total_ars
            costo_total_usd (now w) in
        gasto_id ← query (λ db, next_id (gastos db));
        update (set_gastos (insert gasto_id nuevo_gasto));;
        commit;;
        mret (AplicacionRegistrada
                (mkStock agroquimico_id (nombre a) (cantidad a))
                (mkGastoInfo gasto_id (Ruralis.cantidad_aplicada nuevo_gasto)
                   (Ruralis.costo_total_ars nuevo_gasto)
                   (Ruralis.costo_total_usd nuevo_gasto) (fecha nuevo_gasto)))
  end.

Definition get_gastos : M DB response :=
  t ← query gastos;
  mret (GastosList t).

(** [func] is looked up in the module's globals each time it is evaluated. *)
Definition get_costo_total (globals : gset string) : M DB response :=
  global globals "func";;
  total_ars ← query (λ db, or_0 (sql_sum costo_total_ars (gastos db)));
  global globals "func";;
  total_usd ← query (λ db, or_0 (sql_sum costo_total_usd (gastos db)));
  mret (CostoTotal total_ars total_usd).

End Ruralis.

(** ** Sequences of requests *)

Inductive legacy_op :=
| LCreateUser (user : Legacy.UserCreate)
| LGetUsers
| LDeleteUser (user_id : Z)
| LCreateAgroquimico (agroquimico : Legacy.AgroquimicoCreate)
| LGetAgroquimicos
| LDeleteAgroquimico (agroquimico_id : Z)
| LAplicar (now : string) (agroquimico_id : Z) (request : Legacy.AplicarAgroquimicoRequest)
| LGetGastos.

Definition legacy_handler (o : legacy_op) : M Legacy.DB Legacy.response :=
  match o with
  | LCreateUser u => Legacy.create_user u
  | LGetUsers => Legacy.get_users
  | LDeleteUser i => Legacy.delete_user i
  | LCreateAgroquimico a => Legacy.create_agroquimico a
  | LGetAgroquimicos => Legacy.get_agroquimicos
  | LDeleteAgroquimico i => Legacy.delete_agroquimico i
  | LAplicar now i rq => Legacy.aplicar_agroquimico now i rq
  | LGetGastos => Legacy.get_gastos
  end.

Definition legacy_run (ops : list legacy_op) (db : Legacy.DB) : Legacy.DB :=
  fold_left (λ db o, snd (request (legacy_handler o) db)) ops db.

Inductive ruralis_op :=
| RCreateAgroquimico (agroquimico : Ruralis.AgroquimicoCreate)
| RGetAgroquimicos
| RAplicar (w : World) (agroquimico_id : Z) (request : Ruralis.AplicarAgroquimicoRequest)
| RGetGastos
| RGetCostoTotal.

Definition ruralis_handler (o : ruralis_op) : M Ruralis.DB Ruralis.response :=
  match o with
  | RCreateAgroquimico a => Ruralis.create_agroquimico a
  | RGetAgroquimicos => Ruralis.get_agroquimicos
  | RAplicar w i rq => Ruralis.aplicar_agroquimico w i rq
  | RGetGastos => Ruralis.get_gastos
  | RGetCostoTotal => Ruralis.get_costo_total Ruralis.module_globals
  end.

Definition ruralis_run (ops : list ruralis_op) (db : Ruralis.DB) : Ruralis.DB :=
  fold_left (λ db o, snd (request (ruralis_handler o) db)) ops db.

(** Every stored agrochemical has a non-negative quantity. *)
Definition legacy_stock_ok (db : Legacy.DB) : Prop :=
  map_Forall (λ _ a, 0 <= Legacy.cantidad a) (Legacy.agroquimicos db).

Definition ruralis_stock_ok (db : Ruralis.DB) : Prop :=
  map_Forall (λ _ a, 0 <= Ruralis.cantidad a) (Ruralis.agroquimicos db).

(** The requests the stock invariant is stated for: an agrochemical is created
    with a non-negative quantity, a dose and an area are positive. *)
Definition legacy_admissible (o : legacy_op) : Prop :=
  match o with
  | LCreateAgroquimico a => 0 <= Legacy.cantidad a
  | LAplicar _ _ rq => 0 < Legacy.dosis_por_ha rq ∧ 0 < Legacy.hectareas rq
  | _ => True
  end.

Definition ruralis_admissible (o : ruralis_op) : Prop :=
  match o with
  | RCreateAgroquimico a => 0 <= Ruralis.cantidad a
  | RAplicar _ _ rq => 0 < Ruralis.dosis rq ∧ 0 < Ruralis.hectareas rq
  | _ => True
  end.

(** The requests under which the agrochemical [i] stays stored: anything but
    its own deletion, applications with a positive dose and area. *)
Definition legacy_keeps (i : Z) (o : legacy_op) : Prop :=
  match o with
  | LDeleteAgroquimico j => j ≠ i
  | LAplicar _ _ rq => 0 < Legacy.dosis_por_ha rq ∧ 0 < Legacy.hectareas rq
  | _ => True
  end.

Definition ruralis_keeps (o : ruralis_op) : Prop :=
  match o with
  | RAplicar _ _ rq => 0 < Ruralis.dosis rq ∧ 0 < Ruralis.hectareas rq
  | _ => True
  end.

(** The agrochemical [i] is stored with a non-negative quantity. *)
Definition legacy_stocked (i : Z) (db : Legacy.DB) : Prop :=
  ∃ a, Legacy.agroquimicos db !! i = Some a ∧ 0 <= Legacy.cantidad a.

Definition ruralis_stocked (i : Z) (db : Ruralis.DB) : Prop :=
  ∃ a, Ruralis.agroquimicos db !! i = Some a ∧ 0 <= Ruralis.cantidad a.

(** The USD cost computed by [Ruralis.aplicar_agroquimico] once the stock
    check has passed, from the ARS cost [ars]. *)
Definition ruralis_usd (w : World) (a : Ruralis.Agroquimico) (ars : Q) : res Q :=
  if bool_decide (Ruralis.moneda a = "ARS")
  then float_mul ars (Ruralis.obtener_tipo_cambio w)
  else Ok ars.

(** ** Concrete stores and worlds used in the examples *)

Definition glifosato (q : Q) : Legacy.Agroquimico :=
  Legacy.mkAgroquimico "Glifosato" q "L" 50.

Definition legacy_db (a : Legacy.Agroquimico) : Legacy.DB :=
  Legacy.mkDB ∅ {[ 1%Z := a ]} ∅.

Definition glifosato_ars (q : Q) : Ruralis.Agroquimico :=
  Ruralis.mkAgroquimico "Glifosato" q "L" 50 "ARS".

Definition ruralis_db (a : Ruralis.Agroquimico) : Ruralis.DB :=
  Ruralis.mkDB ∅ {[ 1%Z := a ]} ∅.

(** The service answers [{"rates": {"USD": v}}]. *)
Definition world_usd (v : pyval) : World :=
  mkWorld (Ok (mkResponse (Ok (PyDict {[ "rates" := PyDict {[ "USD" := v ]} ]}))))
    "2025-03-01 10:00:00".

(** The service cannot be reached. *)
Definition world_down : World :=
  mkWorld (Raise ConnectionError) "2025-03-01 10:00:00".

(** The body is not JSON. *)
Definition world_garbled : World :=
  mkWorld (Ok (mkResponse (Raise JSONDecodeError))) "2025-03-01 10:00:00".

(** The body is JSON without a "USD" rate: [{"rates": {}}]. *)
Definition world_no_usd : World :=
  mkWorld (Ok (mkResponse (Ok (PyDict {[ "rates" := PyDict ∅ ]}))))
    "2025-03-01 10:00:00".

Definition two_users : Legacy.DB :=
  Legacy.mkDB {[ 1%Z := Legacy.mkUser "Ana" "ana@campo.ar";
                 2%Z := Legacy.mkUser "Luis" "luis@campo.ar" ]}
    {[ 1%Z := glifosato 100 ]} ∅.

(** The first scenario of the specification: 100 l of Glifosato at 50 ARS,
    2 l per hectare on 10 hectares, and a rate of 0.001. *)
Definition scenario_world : World := world_usd (PyNum 0.001).
Definition scenario_request : Ruralis.AplicarAgroquimicoRequest := Ruralis.mkAplicar 2 10.
Definition scenario_db : Ruralis.DB := ruralis_db (glifosato_ars 100).
Definition scenario_stock : Ruralis.StockInfo :=
  Ruralis.mkStock 1 "Glifosato" (100 - 2 * 10).
Definition scenario_gasto : Ruralis.GastoInfo :=
  Ruralis.mkGastoInfo 1 (2 * 10) (50 * (2 * 10)) (50 * (2 * 10) * 0.001)
    "2025-03-01 10:00:00".
Definition scenario_db' : Ruralis.DB :=
  Ruralis.mkDB ∅ {[ 1%Z := glifosato_ars (100 - 2 * 10) ]}
    {[ 1%Z := Ruralis.mkGasto 1 (2 * 10) (50 * (2 * 10)) (50 * (2 * 10) * 0.001)
                "2025-03-01 10:00:00" ]}.

(** The same scenario in [src/main.py]. *)
Definition legacy_request : Legacy.AplicarAgroquimicoRequest := Legacy.mkAplicar 2 10.
Definition legacy_stock : Legacy.StockInfo :=
  Legacy.mkStock 1 "Glifosato" (100 - 2 * 10).
Definition legacy_gasto : Legacy.GastoInfo :=
  Legacy.mkGastoInfo 1 (2 * 10) (50 * (2 * 10 / 1000)) "2025-03-01 10:00:00".
Definition legacy_db' : Legacy.DB :=
  Legacy.mkDB ∅ {[ 1%Z := glifosato (100 - 2 * 10) ]}
    {[ 1%Z := Legacy.mkGasto 1 (2 * 10) (50 * (2 * 10 / 1000)) "2025-03-01 10:00:00" ]}.

(** A product priced in USD. *)
Definition atrazina_usd (q : Q) : Ruralis.Agroquimico :=
  Ruralis.mkAgroquimico "Atrazina" q "kg" 8 "USD".

(** A product given away: unit price 0. *)
Definition muestra_gratis : Legacy.Agroquimico :=
  Legacy.mkAgroquimico "Muestra" 10 "L" 0.

(** The rate is usable: the product is not priced in ARS, or the value that
    [obtener_tipo_cambio] returns is a number that a float can hold. *)
Definition rate_usable (w : World) (a : Ruralis.Agroquimico) : Prop :=
  Ruralis.moneda a ≠ "ARS"
  ∨ ∃ r, py_number (Ruralis.obtener_tipo_cambio w) = Some r ∧ Qabs r < float_limit.

(** A morning of requests on an empty store, in each application. *)
Definition legacy_session : list legacy_op :=
  [ LCreateUser (Legacy.mkUser "Ana" "ana@campo.ar");
    LCreateAgroquimico (glifosato 100);
    LAplicar "2025-03-01 10:00:00" 1 (Legacy.mkAplicar 2 10);
    LAplicar "2025-03-01 10:05:00" 1 (Legacy.mkAplicar 3 30);
    LGetAgroquimicos;
    LAplicar "2025-03-01 10:10:00" 1 (Legacy.mkAplicar 8 10);
    LCreateAgroquimico (glifosato 5);
    LDeleteAgroquimico 1;
    LGetGastos ].

Definition ruralis_session : list ruralis_op :=
  [ RCreateAgroquimico (glifosato_ars 100);
    RAplicar scenario_world 1 (Ruralis.mkAplicar 2 10);
    RAplicar (world_usd PyNone) 1 (Ruralis.mkAplicar 2 10);
    RAplicar world_down 1 (Ruralis.mkAplicar 3 30);
    RGetCostoTotal;
    RAplicar world_garbled 1 (Ruralis.mkAplicar 8 10);
    RGetAgroquimicos ].

(** Requests on a store that already holds agrochemical 1, among them the
    creation of a product with a negative quantity and the deletion of
    another row. *)
Definition legacy_tail : list legacy_op :=
  [ LAplicar "2025-03-01 10:00:00" 1 (Legacy.mkAplicar 2 10);
    LCreateAgroquimico (glifosato (-3));
    LAplicar "2025-03-01 10:05:00" 1 (Legacy.mkAplicar 3 30);
    LDeleteAgroquimico 2;
    LAplicar "2025-03-01 10:10:00" 1 (Legacy.mkAplicar 8 10) ].

Definition ruralis_tail : list ruralis_op :=
  [ RAplicar scenario_world 1 (Ruralis.mkAplicar 2 10);
    RCreateAgroquimico (glifosato_ars (-3));
    RAplicar world_down 1 (Ruralis.mkAplicar 3 30);
    RGetCostoTotal;
    RAplicar world_no_usd 1 (Ruralis.mkAplicar 8 10) ].

(** No two stored users share an e-mail. *)
Definition legacy_emails_unique (db : Legacy.DB) : Prop :=
  ∀ i j u v,
    Legacy.users db !! i = Some u → Legacy.users db !! j = Some v →
    Legacy.email u = Legacy.email v → i = j.

(** The requests that do not delete the agrochemical [i]. *)
Definition legacy_spares (i : Z) (o : legacy_op) : Prop :=
  match o with
  | LDeleteAgroquimico j => j ≠ i
  | _ => True
  end.

(** Two people registering with the same e-mail, on an empty store. *)
Definition ana : Legacy.UserCreate := Legacy.mkUser "Ana" "ana@campo.ar".
Definition otra_ana : Legacy.UserCreate := Legacy.mkUser "Ana Maria" "ana@campo.ar".
Definition luis : Legacy.UserCreate := Legacy.mkUser "Luis" "luis@campo.ar".
Definition empty_legacy : Legacy.DB := Legacy.mkDB ∅ ∅ ∅.
Definition empty_ruralis : Ruralis.DB := Ruralis.mkDB ∅ ∅ ∅.

Definition marta : Legacy.UserCreate := Legacy.mkUser "Marta" "marta@campo.ar".

(** The request did not go through: it raised, or it answered with an error
    body. *)
Definition legacy_failed (r : res Legacy.response) : Prop :=
  match r with
  | Raise _ => True
  | Ok (Legacy.Error _) => True
  | Ok _ => False
  end.

Definition ruralis_failed (r : res Ruralis.response) : Prop :=
  match r with
  | Raise _ => True
  | Ok (Ruralis.Error _) => True
  | Ok _ => False
  end.

(** The requests that are not an application on the agrochemical [i]. *)
Definition legacy_no_apply (i : Z) (o : legacy_op) : Prop :=
  match o with
  | LAplicar _ j _ => j ≠ i
  | _ => True
  end.

Definition ruralis_no_apply (i : Z) (o : ruralis_op) : Prop :=
  match o with
  | RAplicar _ j _ => j ≠ i
  | _ => True
  end.

(** Unit prices are non-negative, and every expense row has a non-negative
    quantity and a non-negative cost (the cost in ARS in the newer
    application). *)
Definition legacy_books_ok (db : Legacy.DB) : Prop :=
  map_Forall (λ _ a, 0 <= Legacy.precio_unitario a) (Legacy.agroquimicos db)
  ∧ map_Forall (λ _ g, 0 <= Legacy.cantidad_aplicada g ∧ 0 <= Legacy.costo_total g)
      (Legacy.gastos db).

Definition ruralis_books_ok (db : Ruralis.DB) : Prop :=
  map_Forall (λ _ a, 0 <= Ruralis.precio_unitario a) (Ruralis.agroquimicos db)
  ∧ map_Forall (λ _ g, 0 <= Ruralis.cantidad_aplicada g
                       ∧ 0 <= Ruralis.costo_total_ars g)
      (Ruralis.gastos db).

(** Requests with sensible inputs: a non-negative unit price, a positive dose
    and a positive area. *)
Definition legacy_sensible (o : legacy_op) : Prop :=
  match o with
  | LCreateAgroquimico a => 0 <= Legacy.precio_unitario a
  | LAplicar _ _ rq => 0 < Legacy.dosis_por_ha rq ∧ 0 < Legacy.hectareas rq
  | _ => True
  end.

Definition ruralis_sensible (o : ruralis_op) : Prop :=
  match o with
  | RCreateAgroquimico a => 0 <= Ruralis.precio_unitario a
  | RAplicar _ _ rq => 0 < Ruralis.dosis rq ∧ 0 < Ruralis.hectareas rq
  | _ => True
  end.

(** Requests that leave agrochemical 1 alone. *)
Definition legacy_others : list legacy_op :=
  [ LCreateAgroquimico (glifosato 7);
    LAplicar "2025-03-01 10:00:00" 2 (Legacy.mkAplicar 1 5);
    LDeleteAgroquimico 2;
    LCreateUser ana;
    LAplicar "2025-03-01 10:05:00" 2 (Legacy.mkAplicar 1 5) ].

Definition ruralis_others : list ruralis_op :=
  [ RCreateAgroquimico (glifosato_ars 7);
    RAplicar scenario_world 2 (Ruralis.mkAplicar 1 5);
    RGetCostoTotal;
    RGetGastos ].

(** * Proofs *)

(** ** Fresh primary keys *)

Lemma max_id_ge {A} (t : gmap Z A) (k : Z) :
  is_Some (t !! k) → (k ≤ max_id t)%Z.
Proof.
  unfold max_id.
  apply (map_fold_weak_ind (λ r (m : gmap Z A), is_Some (m !! k) → (k ≤ r)%Z)).
  - rewrite lookup_empty. intros [? ?]; discriminate.
  - intros i x m r Hi IH. rewrite lookup_insert.
    destruct (decide (i = k)); subst; intros H; [|specialize (IH H)]; lia.
Qed.

Lemma next_id_fresh {A} (t : gmap Z A) : t !! next_id t = None.
Proof.
  destruct (t !! next_id t) eqn:E; [|done].
  assert (H : (next_id t ≤ max_id t)%Z) by (apply max_id_ge; eauto).
  unfold next_id in H. lia.
Qed.

(** ** What each request returns and stores *)

Ltac run_request :=
  unfold request;
  cbv [mbind M_bind m_bind mret M_ret m_ret query update commit raise lift
       working committed].

Lemma legacy_aplicar_eq now id rq db :
  request (Legacy.aplicar_agroquimico now id rq) db =
  match Legacy.agroquimicos db !! id with
  | None => (Ok (Legacy.Error "Agroquímico no encontrado"), db)
  | Some a =>
      let n := Legacy.dosis_por_ha rq * Legacy.hectareas rq in
      if Qlt_le_dec (Legacy.cantidad a) n
      then (Ok (Legacy.Error "Stock insuficiente"), db)
      else
        let costo := Legacy.precio_unitario a * (n / 1000) in
        let gid := next_id (Legacy.gastos db) in
        (Ok (Legacy.AplicacionRegistrada
               (Legacy.mkStock id (Legacy.nombre a) (Legacy.cantidad a - n))
               (Legacy.mkGastoInfo gid n costo now)),
         Legacy.mkDB (Legacy.users db)
           (<[id := Legacy.set_cantidad (Legacy.cantidad a - n) a]>
              (Legacy.agroquimicos db))
           (<[gid := Legacy.mkGasto id n costo now]> (Legacy.gastos db)))
  end.
Proof.
  unfold Legacy.aplicar_agroquimico. run_request.
  destruct (Legacy.agroquimicos db !! id) as [a|]; [|reflexivity].
  destruct (Qlt_le_dec _ _); reflexivity.
Qed.

Lemma ruralis_aplicar_eq w id rq db :
  request (Ruralis.aplicar_agroquimico w id rq) db =
  match Ruralis.agroquimicos db !! id with
  | None => (Ok (Ruralis.Error "Agroquímico no encontrado"), db)
  | Some a =>
      let n := Ruralis.dosis rq * Ruralis.hectareas rq in
      if Qlt_le_dec (Ruralis.cantidad a) n
      then (Ok (Ruralis.Error "Stock insuficiente"), db)
      else
        let ars := Ruralis.precio_unitario a * n in
        match ruralis_usd w a ars with
        | Raise e => (Raise e, db)
        | Ok usd =>
            let gid := next_id (Ruralis.gastos db) in
            (Ok (Ruralis.AplicacionRegistrada
                   (Ruralis.mkStock id (Ruralis.nombre a) (Ruralis.cantidad a - n))
                   (Ruralis.mkGastoInfo gid n ars usd (now w))),
             Ruralis.mkDB (Ruralis.users db)
               (<[id := Ruralis.set_cantidad (Ruralis.cantidad a - n) a]>
                  (Ruralis.agroquimicos db))
               (<[gid := Ruralis.mkGasto id n ars usd (now w)]> (Ruralis.gastos db)))
        end
  end.
Proof.
  unfold Ruralis.aplicar_agroquimico, ruralis_usd. run_request.
  destruct (Ruralis.agroquimicos db !! id) as [a|]; [|reflexivity].
  destruct (Qlt_le_dec _ _); [reflexivity|]. cbn.
  destruct (bool_decide _); [|reflexivity].
  destruct (float_mul _ _); reflexivity.
Qed.

Lemma legacy_delete_user_eq user_id db :
  request (Legacy.delete_user user_id) db =
  match Legacy.users db !! user_id with
  | None => (Ok (Legacy.Error "Usuario no encontrado"), db)
  | Some _ =>
      (Ok (Legacy.Message "Usuario eliminado"),
       Legacy.mkDB (delete user_id (Legacy.users db)) (Legacy.agroquimicos db)
         (Legacy.gastos db))
  end.
Proof.
  unfold Legacy.delete_user. run_request.
  destruct (Legacy.users db !! user_id); reflexivity.
Qed.

Lemma legacy_delete_agroquimico_eq agroquimico_id db :
  request (Legacy.delete_agroquimico agroquimico_id) db =
  match Legacy.agroquimicos db !! agroquimico_id with
  | None => (Ok (Legacy.Error "Agroquímico no encontrado"), db)
  | Some _ =>
      (Ok (Legacy.Message "Agroquímico eliminado"),
       Legacy.mkDB (Legacy.users db) (delete agroquimico_id (Legacy.agroquimicos db))
         (Legacy.gastos db))
  end.
Proof.
  unfold Legacy.delete_agroquimico. run_request.
  destruct (Legacy.agroquimicos db !! agroquimico_id); reflexivity.
Qed.

Lemma legacy_create_agroquimico_eq a db :
  request (Legacy.create_agroquimico a) db =
  (Ok (Legacy.AgroquimicoAgregado (next_id (Legacy.agroquimicos db)) a),
   Legacy.mkDB (Legacy.users db)
     (<[next_id (Legacy.agroquimicos db) := a]> (Legacy.agroquimicos db))
     (Legacy.gastos db)).
Proof. reflexivity. Qed.

Lemma legacy_create_user_agroquimicos u db :
  Legacy.agroquimicos (snd (request (Legacy.create_user u) db)) = Legacy.agroquimicos db.
Proof.
  unfold Legacy.create_user. run_request.
  destruct (bool_decide _); reflexivity.
Qed.

Lemma ruralis_create_agroquimico_eq a db :
  request (Ruralis.create_agroquimico a) db =
  (Ok (Ruralis.AgroquimicoAgregado (next_id (Ruralis.agroquimicos db)) a),
   Ruralis.mkDB (Ruralis.users db)
     (<[next_id (Ruralis.agroquimicos db) := a]> (Ruralis.agroquimicos db))
     (Ruralis.gastos db)).
Proof. reflexivity. Qed.

(** ** C1: insufficient stock *)

(** C1. In both applications, an apply request on a stored agrochemical whose
    quantity is strictly below [dose * hectares] gets the error body
    "Stock insuficiente"; the store after the request is the store before it,
    so the agrochemical keeps its quantity and the expense table is the same. *)
Theorem insufficient_stock_rejected :
  (∀ now id rq db a,
     Legacy.agroquimicos db !! id = Some a →
     Legacy.cantidad a < Legacy.dosis_por_ha rq * Legacy.hectareas rq →
     ∃ db',
       request (Legacy.aplicar_agroquimico now id rq) db
         = (Ok (Legacy.Error "Stock insuficiente"), db')
       ∧ Legacy.agroquimicos db' !! id = Some a
       ∧ Legacy.gastos db' = Legacy.gastos db
       ∧ db' = db)
  ∧
  (∀ w id rq db a,
     Ruralis.agroquimicos db !! id = Some a →
     Ruralis.cantidad a < Ruralis.dosis rq * Ruralis.hectareas rq →
     ∃ db',
       request (Ruralis.aplicar_agroquimico w id rq) db
         = (Ok (Ruralis.Error "Stock insuficiente"), db')
       ∧ Ruralis.agroquimicos db' !! id = Some a
       ∧ Ruralis.gastos db' = Ruralis.gastos db
       ∧ db' = db).
Proof.
  split.
  - intros now id rq db a Ha Hlt. exists db.
    rewrite legacy_aplicar_eq, Ha. cbn zeta.
    destruct (Qlt_le_dec _ _) as [_|Hle]; [done|].
    exfalso. apply (Qlt_not_le _ _ Hlt Hle).
  - intros w id rq db a Ha Hlt. exists db.
    rewrite ruralis_aplicar_eq, Ha. cbn zeta.
    destruct (Qlt_le_dec _ _) as [_|Hle]; [done|].
    exfalso. apply (Qlt_not_le _ _ Hlt Hle).
Qed.

(** The second scenario of the specification: 5 in stock, 2 per hectare on 10
    hectares. *)
Lemma insufficient_stock_rejected_witness :
  (∃ db',
     request (Legacy.aplicar_agroquimico "2025-03-01 10:00:00" 1
                (Legacy.mkAplicar 2 10)) (legacy_db (glifosato 5))
       = (Ok (Legacy.Error "Stock insuficiente"), db')
     ∧ Legacy.agroquimicos db' !! 1%Z = Some (glifosato 5)
     ∧ Legacy.gastos db' = Legacy.gastos (legacy_db (glifosato 5))
     ∧ db' = legacy_db (glifosato 5))
  ∧
  (∃ db',
     request (Ruralis.aplicar_agroquimico world_down 1
                (Ruralis.mkAplicar 2 10)) (ruralis_db (glifosato_ars 5))
       = (Ok (Ruralis.Error "Stock insuficiente"), db')
     ∧ Ruralis.agroquimicos db' !! 1%Z = Some (glifosato_ars 5)
     ∧ Ruralis.gastos db' = Ruralis.gastos (ruralis_db (glifosato_ars 5))
     ∧ db' = ruralis_db (glifosato_ars 5)).
Proof.
  split.
  - apply (proj1 insufficient_stock_rejected); [reflexivity | reflexivity].
  - apply (proj2 insufficient_stock_rejected); [reflexivity | reflexivity].
Defined.

(** ** C7: delete by id *)

(** Deleting a user or an agrochemical whose id is not stored, for an id that
    the driver accepts, returns the body [{"error": "... no encontrado"}] (a
    returned value, not an exception) and leaves the store as it was; when the
    id is stored, the row is removed, every other row and table is kept, and
    the confirmation [{"message": "... eliminado"}] is returned.  An id outside
    [int64] is refused by the driver at the first query of the handler, with
    [OverflowError] and no answer. *)
Lemma delete_by_id :
  (∀ user_id db,
     int64 user_id →
     Legacy.users db !! user_id = None →
     request (Legacy.delete_user user_id) db
       = (Ok (Legacy.Error "Usuario no encontrado"), db))
  ∧
  (∀ user_id db u,
     Legacy.users db !! user_id = Some u →
     ∃ db',
       request (Legacy.delete_user user_id) db
         = (Ok (Legacy.Message "Usuario eliminado"), db')
       ∧ Legacy.users db' !! user_id = None
       ∧ (∀ j, j ≠ user_id → Legacy.users db' !! j = Legacy.users db !! j)
       ∧ Legacy.agroquimicos db' = Legacy.agroquimicos db
       ∧ Legacy.gastos db' = Legacy.gastos db)
  ∧
  (∀ agroquimico_id db,
     int64 agroquimico_id →
     Legacy.agroquimicos db !! agroquimico_id = None →
     request (Legacy.delete_agroquimico agroquimico_id) db
       = (Ok (Legacy.Error "Agroquímico no encontrado"), db))
  ∧
  (∀ agroquimico_id db a,
     Legacy.agroquimicos db !! agroquimico_id = Some a →
     ∃ db',
       request (Legacy.delete_agroquimico agroquimico_id) db
         = (Ok (Legacy.Message "Agroquímico eliminado"), db')
       ∧ Legacy.agroquimicos db' !! agroquimico_id = None
       ∧ (∀ j, j ≠ agroquimico_id →
            Legacy.agroquimicos db' !! j = Legacy.agroquimicos db !! j)
       ∧ Legacy.users db' = Legacy.users db
       ∧ Legacy.gastos db' = Legacy.gastos db).
Proof.
  repeat split.
  - intros i db _ H. by rewrite legacy_delete_user_eq, H.
  - intros i db u H. eexists. rewrite legacy_delete_user_eq, H.
    split; [reflexivity|]. cbn. split; [apply lookup_delete_eq|].
    split; [|done]. intros j Hj. by apply lookup_delete_ne.
  - intros i db _ H. by rewrite legacy_delete_agroquimico_eq, H.
  - intros i db a H. eexists. rewrite legacy_delete_agroquimico_eq, H.
    split; [reflexivity|]. cbn. split; [apply lookup_delete_eq|].
    split; [|done]. intros j Hj. by apply lookup_delete_ne.
Qed.

Example delete_by_id_two_users :
  request (Legacy.delete_user 7) two_users
    = (Ok (Legacy.Error "Usuario no encontrado"), two_users)
  ∧ (∃ db',
       request (Legacy.delete_user 2) two_users
         = (Ok (Legacy.Message "Usuario eliminado"), db')
       ∧ Legacy.users db' !! 2%Z = None
       ∧ (∀ j, j ≠ 2%Z → Legacy.users db' !! j = Legacy.users two_users !! j)
       ∧ Legacy.agroquimicos db' = Legacy.agroquimicos two_users
       ∧ Legacy.gastos db' = Legacy.gastos two_users)
  ∧ request (Legacy.delete_agroquimico 7) two_users
      = (Ok (Legacy.Error "Agroquímico no encontrado"), two_users)
  ∧ (∃ db',
       request (Legacy.delete_agroquimico 1) two_users
         = (Ok (Legacy.Message "Agroquímico eliminado"), db')
       ∧ Legacy.agroquimicos db' !! 1%Z = None
       ∧ (∀ j, j ≠ 1%Z →
            Legacy.agroquimicos db' !! j = Legacy.agroquimicos two_users !! j)
       ∧ Legacy.users db' = Legacy.users two_users
       ∧ Legacy.gastos db' = Legacy.gastos two_users).
Proof.
  destruct delete_by_id as (Hu0 & Hu1 & Ha0 & Ha1).
  split; [apply Hu0; [by vm_compute | reflexivity]|].
  split; [apply (Hu1 2%Z two_users (Legacy.mkUser "Luis" "luis@campo.ar")); reflexivity|].
  split; [apply Ha0; [by vm_compute | reflexivity]|].
  apply (Ha1 1%Z two_users (glifosato 100)); reflexivity.
Qed.

(** ** C3: the cost in ARS *)

(** C3. Whenever [Ruralis.aplicar_agroquimico] answers with a registered
    application, the expense row it stored (and the body it returned) carry
    [costo_total_ars = precio_unitario * (dosis * hectareas)].  The older
    application has no ARS field: its single [costo_total] is
    [precio_unitario * (dosis_por_ha * hectareas / 1000)], the variant the
    specification mentions. *)
Theorem cost_in_ars :
  (∀ w id rq db s g db',
     request (Ruralis.aplicar_agroquimico w id rq) db
       = (Ok (Ruralis.AplicacionRegistrada s g), db') →
     ∃ a rec,
       Ruralis.agroquimicos db !! id = Some a
       ∧ Ruralis.gastos db' !! Ruralis.g_id g = Some rec
       ∧ Ruralis.costo_total_ars rec
           = Ruralis.precio_unitario a * (Ruralis.dosis rq * Ruralis.hectareas rq)
       ∧ Ruralis.g_costo_total_ars g = Ruralis.costo_total_ars rec)
  ∧
  (∀ now id rq db s g db',
     request (Legacy.aplicar_agroquimico now id rq) db
       = (Ok (Legacy.AplicacionRegistrada s g), db') →
     ∃ a rec,
       Legacy.agroquimicos db !! id = Some a
       ∧ Legacy.gastos db' !! Legacy.g_id g = Some rec
       ∧ Legacy.costo_total rec
           = Legacy.precio_unitario a
             * (Legacy.dosis_por_ha rq * Legacy.hectareas rq / 1000)
       ∧ Legacy.g_costo_total g = Legacy.costo_total rec).
Proof.
  split.
  - intros w id rq db s g db' H. rewrite ruralis_aplicar_eq in H.
    destruct (Ruralis.agroquimicos db !! id) as [a|]; [|discriminate].
    cbn zeta in H. destruct (Qlt_le_dec _ _); [discriminate|].
    destruct (ruralis_usd _ _ _) as [usd|]; [|discriminate].
    injection H as <- <- <-. eexists a, _. cbn.
    split; [done|]. split; [apply lookup_insert_eq|]. done.
  - intros now id rq db s g db' H. rewrite legacy_aplicar_eq in H.
    destruct (Legacy.agroquimicos db !! id) as [a|]; [|discriminate].
    cbn zeta in H. destruct (Qlt_le_dec _ _); [discriminate|].
    injection H as <- <- <-. eexists a, _. cbn.
    split; [done|]. split; [apply lookup_insert_eq|]. done.
Qed.

(** The first scenario: unit price 50, dose 2 on 10 hectares. *)
Lemma cost_in_ars_witness :
  (∃ a rec,
     Ruralis.agroquimicos scenario_db !! 1%Z = Some a
     ∧ Ruralis.gastos scenario_db' !! Ruralis.g_id scenario_gasto = Some rec
     ∧ Ruralis.costo_total_ars rec = Ruralis.precio_unitario a * (2 * 10)
     ∧ Ruralis.g_costo_total_ars scenario_gasto = Ruralis.costo_total_ars rec)
  ∧
  (∃ a rec,
     Legacy.agroquimicos (legacy_db (glifosato 100)) !! 1%Z = Some a
     ∧ Legacy.gastos legacy_db' !! Legacy.g_id legacy_gasto = Some rec
     ∧ Legacy.costo_total rec = Legacy.precio_unitario a * (2 * 10 / 1000)
     ∧ Legacy.g_costo_total legacy_gasto = Legacy.costo_total rec).
Proof.
  split.
  - apply (proj1 cost_in_ars scenario_world 1%Z scenario_request scenario_db
             scenario_stock scenario_gasto scenario_db').
    vm_compute. reflexivity.
  - apply (proj2 cost_in_ars "2025-03-01 10:00:00" 1%Z legacy_request
             (legacy_db (glifosato 100)) legacy_stock legacy_gasto legacy_db').
    vm_compute. reflexivity.
Defined.

Example scenario_cost_in_ars :
  request (Ruralis.aplicar_agroquimico scenario_world 1 scenario_request) scenario_db
    = (Ok (Ruralis.AplicacionRegistrada scenario_stock scenario_gasto), scenario_db')
  ∧ Ruralis.g_costo_total_ars scenario_gasto = 1000
  ∧ Ruralis.stock_restante scenario_stock = 80
  ∧ Ruralis.g_costo_total_usd scenario_gasto == 1.
Proof. repeat split. Qed.

Example scenario_legacy_cost :
  request (Legacy.aplicar_agroquimico "2025-03-01 10:00:00" 1 legacy_request)
      (legacy_db (glifosato 100))
    = (Ok (Legacy.AplicacionRegistrada legacy_stock legacy_gasto), legacy_db')
  ∧ Legacy.g_costo_total legacy_gasto == 1.
Proof. repeat split. Qed.

(** ** C5: the cost in USD *)

Lemma float_mul_Ok x v y :
  float_mul x v = Ok y → ∃ r, py_number v = Some r ∧ y = x * r.
Proof.
  destruct v; cbn; try discriminate.
  - intros [= <-]; eauto.
  - destruct (Qlt_le_dec _ _); [|discriminate]. intros [= <-]; eauto.
Qed.

(** A number that a float can hold multiplies. *)
Lemma float_mul_in_range x v r :
  py_number v = Some r → Qabs r < float_limit → float_mul x v = Ok (x * r).
Proof.
  destruct v; cbn; try discriminate.
  - by intros [= <-].
  - intros [= <-] Hr. destruct (Qlt_le_dec _ _) as [_|Hge]; [done|].
    exfalso. apply (Qlt_not_le _ _ Hr Hge).
Qed.

(** Anything that is not a number raises [TypeError]. *)
Lemma float_mul_not_number x v :
  py_number v = None → float_mul x v = Raise TypeError.
Proof. destruct v; cbn; (discriminate || reflexivity). Qed.

(** C5. Whenever [Ruralis.aplicar_agroquimico] answers with a registered
    application: if the agrochemical's [moneda] is "ARS", the value returned by
    [obtener_tipo_cambio] is a number [r] and the stored [costo_total_usd] is
    [costo_total_ars * r]; for any other [moneda] the stored [costo_total_usd]
    is [costo_total_ars] itself. *)
Theorem cost_in_usd :
  ∀ w id rq db s g db',
    request (Ruralis.aplicar_agroquimico w id rq) db
      = (Ok (Ruralis.AplicacionRegistrada s g), db') →
    ∃ a rec,
      Ruralis.agroquimicos db !! id = Some a
      ∧ Ruralis.gastos db' !! Ruralis.g_id g = Some rec
      ∧ Ruralis.g_costo_total_usd g = Ruralis.costo_total_usd rec
      ∧ (Ruralis.moneda a = "ARS" →
           ∃ r, py_number (Ruralis.obtener_tipo_cambio w) = Some r
                ∧ Ruralis.costo_total_usd rec = Ruralis.costo_total_ars rec * r)
      ∧ (Ruralis.moneda a ≠ "ARS" →
           Ruralis.costo_total_usd rec = Ruralis.costo_total_ars rec).
Proof.
  intros w id rq db s g db' H. rewrite ruralis_aplicar_eq in H.
  destruct (Ruralis.agroquimicos db !! id) as [a|]; [|discriminate].
  cbn zeta in H. destruct (Qlt_le_dec _ _); [discriminate|].
  destruct (ruralis_usd _ _ _) as [usd|] eqn:Husd; [|discriminate].
  injection H as <- <- <-. eexists a, _. cbn.
  split; [done|]. split; [apply lookup_insert_eq|]. split; [done|].
  unfold ruralis_usd in Husd. cbn. split.
  - intros HARS. rewrite bool_decide_eq_true_2 in Husd by done.
    by apply float_mul_Ok in Husd.
  - intros HUSD. rewrite bool_decide_eq_false_2 in Husd by done.
    by injection Husd as <-.
Qed.

Lemma cost_in_usd_witness :
  ∃ a rec,
    Ruralis.agroquimicos scenario_db !! 1%Z = Some a
    ∧ Ruralis.gastos scenario_db' !! Ruralis.g_id scenario_gasto = Some rec
    ∧ Ruralis.g_costo_total_usd scenario_gasto = Ruralis.costo_total_usd rec
    ∧ (Ruralis.moneda a = "ARS" →
         ∃ r, py_number (Ruralis.obtener_tipo_cambio scenario_world) = Some r
              ∧ Ruralis.costo_total_usd rec = Ruralis.costo_total_ars rec * r)
    ∧ (Ruralis.moneda a ≠ "ARS" →
         Ruralis.costo_total_usd rec = Ruralis.costo_total_ars rec).
Proof.
  apply (cost_in_usd scenario_world 1%Z scenario_request scenario_db
           scenario_stock scenario_gasto scenario_db').
  vm_compute. reflexivity.
Defined.

(** A product priced in USD keeps its cost, whatever the service answers. *)
Example usd_product_cost :
  ∃ s g db',
    request (Ruralis.aplicar_agroquimico (world_usd PyNone) 1 (Ruralis.mkAplicar 2 10))
        (ruralis_db (atrazina_usd 100))
      = (Ok (Ruralis.AplicacionRegistrada s g), db')
    ∧ Ruralis.g_costo_total_ars g = 160
    ∧ Ruralis.g_costo_total_usd g = 160.
Proof. do 3 eexists. split; [vm_compute; reflexivity|]. split; reflexivity. Qed.

(** ** An application with enough stock *)

(** A usable rate gives a cost in USD. *)
Lemma rate_usable_Ok w a ars :
  rate_usable w a → ∃ usd, ruralis_usd w a ars = Ok usd.
Proof.
  unfold rate_usable, ruralis_usd. intros [Hne | (r & Hr & Hlim)].
  - rewrite bool_decide_eq_false_2 by done. eauto.
  - destruct (bool_decide _); [|eauto].
    exists (ars * r). by apply float_mul_in_range.
Qed.

(** With enough stock [src/main.py] registers the application: the quantity of
    the row drops by [dose * hectares], one expense row with that quantity is
    inserted under an id that was free, and every other row is kept. *)
Lemma legacy_apply_succeeds now id rq db a :
  Legacy.agroquimicos db !! id = Some a →
  Legacy.dosis_por_ha rq * Legacy.hectareas rq <= Legacy.cantidad a →
  let n := Legacy.dosis_por_ha rq * Legacy.hectareas rq in
  let costo := Legacy.precio_unitario a * (n / 1000) in
  let gid := next_id (Legacy.gastos db) in
  Legacy.gastos db !! gid = None
  ∧ request (Legacy.aplicar_agroquimico now id rq) db
    = (Ok (Legacy.AplicacionRegistrada
             (Legacy.mkStock id (Legacy.nombre a) (Legacy.cantidad a - n))
             (Legacy.mkGastoInfo gid n costo now)),
       Legacy.mkDB (Legacy.users db)
         (<[id := Legacy.set_cantidad (Legacy.cantidad a - n) a]>
            (Legacy.agroquimicos db))
         (<[gid := Legacy.mkGasto id n costo now]> (Legacy.gastos db))).
Proof.
  intros Ha Hle n costo gid. split; [apply next_id_fresh|].
  rewrite legacy_aplicar_eq, Ha. cbn zeta.
  destruct (Qlt_le_dec _ _) as [Hlt|_]; [|reflexivity].
  exfalso. apply (Qlt_not_le _ _ Hlt Hle).
Qed.

(** The same in [src/ruralis/main.py], when the cost in USD can be computed. *)
Lemma ruralis_apply_succeeds w id rq db a usd :
  Ruralis.agroquimicos db !! id = Some a →
  Ruralis.dosis rq * Ruralis.hectareas rq <= Ruralis.cantidad a →
  let n := Ruralis.dosis rq * Ruralis.hectareas rq in
  let ars := Ruralis.precio_unitario a * n in
  let gid := next_id (Ruralis.gastos db) in
  ruralis_usd w a ars = Ok usd →
  Ruralis.gastos db !! gid = None
  ∧ request (Ruralis.aplicar_agroquimico w id rq) db
    = (Ok (Ruralis.AplicacionRegistrada
             (Ruralis.mkStock id (Ruralis.nombre a) (Ruralis.cantidad a - n))
             (Ruralis.mkGastoInfo gid n ars usd (now w))),
       Ruralis.mkDB (Ruralis.users db)
         (<[id := Ruralis.set_cantidad (Ruralis.cantidad a - n) a]>
            (Ruralis.agroquimicos db))
         (<[gid := Ruralis.mkGasto id n ars usd (now w)]> (Ruralis.gastos db))).
Proof.
  intros Ha Hle n ars gid Husd. split; [apply next_id_fresh|].
  rewrite ruralis_aplicar_eq, Ha. cbn zeta.
  destruct (Qlt_le_dec _ _) as [Hlt|_].
  - exfalso. apply (Qlt_not_le _ _ Hlt Hle).
  - fold n ars. by rewrite Husd.
Qed.

(** When the product is priced in ARS and the rate is not a number, an
    application that passed the stock check raises [TypeError] and nothing is
    stored. *)
Lemma ruralis_apply_raises w id rq db a :
  Ruralis.agroquimicos db !! id = Some a →
  ¬ Ruralis.cantidad a < Ruralis.dosis rq * Ruralis.hectareas rq →
  Ruralis.moneda a = "ARS" →
  py_number (Ruralis.obtener_tipo_cambio w) = None →
  request (Ruralis.aplicar_agroquimico w id rq) db = (Raise TypeError, db).
Proof.
  intros Ha Hle HA Hno. rewrite ruralis_aplicar_eq, Ha. cbn zeta.
  destruct (Qlt_le_dec _ _) as [Hlt|_]; [done|].
  unfold ruralis_usd. rewrite bool_decide_eq_true_2 by done.
  by rewrite float_mul_not_number.
Qed.

(** ** C2: an application with enough stock *)

(** C2 (evaluation at the failing request). 100 l in stock priced in ARS, 20 l
    requested, and the exchange-rate service answers
    [{"rates": {"USD": null}}]: [obtener_tipo_cambio] returns [None], the
    multiplication [costo_total_ars * tipo_cambio] raises [TypeError], and the
    request ends without a commit: no expense row, stock still 100. *)
Theorem apply_raises_on_null_rate :
  Ruralis.agroquimicos scenario_db !! 1%Z = Some (glifosato_ars 100)
  ∧ Ruralis.dosis scenario_request * Ruralis.hectareas scenario_request
      <= Ruralis.cantidad (glifosato_ars 100)
  ∧ Ruralis.obtener_tipo_cambio (world_usd PyNone) = PyNone
  ∧ request (Ruralis.aplicar_agroquimico (world_usd PyNone) 1 scenario_request)
        scenario_db
      = (Raise TypeError, scenario_db).
Proof.
  split; [reflexivity|]. split; [by vm_compute|]. split; reflexivity.
Qed.

(** ** C9: the boundary of the stock check *)

(** Demand equal to the stock passes the check and empties the stock: always in
    the older application, and in the newer one when the rate is usable. *)
Lemma legacy_boundary now id rq db a :
  Legacy.agroquimicos db !! id = Some a →
  Legacy.dosis_por_ha rq * Legacy.hectareas rq == Legacy.cantidad a →
  ∃ s g db' a' rec,
    request (Legacy.aplicar_agroquimico now id rq) db
      = (Ok (Legacy.AplicacionRegistrada s g), db')
    ∧ Legacy.agroquimicos db' !! id = Some a'
    ∧ Legacy.cantidad a' == 0
    ∧ Legacy.stock_restante s == 0
    ∧ Legacy.gastos db !! Legacy.g_id g = None
    ∧ Legacy.gastos db' !! Legacy.g_id g = Some rec.
Proof.
  intros Ha Heq.
  destruct (legacy_apply_succeeds now id rq db a Ha) as [Hfresh Hrun].
  { rewrite Heq. apply Qle_refl. }
  do 5 eexists. split; [exact Hrun|]. cbn.
  split; [apply lookup_insert_eq|]. cbn.
  split; [lra|]. split; [lra|]. split; [exact Hfresh|]. apply lookup_insert_eq.
Qed.

Lemma ruralis_boundary w id rq db a :
  Ruralis.agroquimicos db !! id = Some a →
  Ruralis.dosis rq * Ruralis.hectareas rq == Ruralis.cantidad a →
  rate_usable w a →
  ∃ s g db' a' rec,
    request (Ruralis.aplicar_agroquimico w id rq) db
      = (Ok (Ruralis.AplicacionRegistrada s g), db')
    ∧ Ruralis.agroquimicos db' !! id = Some a'
    ∧ Ruralis.cantidad a' == 0
    ∧ Ruralis.stock_restante s == 0
    ∧ Ruralis.gastos db !! Ruralis.g_id g = None
    ∧ Ruralis.gastos db' !! Ruralis.g_id g = Some rec.
Proof.
  intros Ha Heq Hrate.
  destruct (rate_usable_Ok w a
              (Ruralis.precio_unitario a * (Ruralis.dosis rq * Ruralis.hectareas rq))
              Hrate) as [usd Husd].
  destruct (ruralis_apply_succeeds w id rq db a usd Ha) as [Hfresh Hrun];
    [rewrite Heq; apply Qle_refl | exact Husd |].
  do 5 eexists. split; [exact Hrun|]. cbn.
  split; [apply lookup_insert_eq|]. cbn.
  split; [lra|]. split; [lra|]. split; [exact Hfresh|]. apply lookup_insert_eq.
Qed.

(** C9 (evaluation at the failing request). 20 l in stock priced in ARS and
    exactly 20 l requested: the strict check lets the request through, but
    with the answer [{"rates": {"USD": null}}] of the exchange-rate service the
    multiplication by [None] raises [TypeError]; the stock is still 20 and no
    expense row exists. *)
Theorem boundary_apply_raises_on_null_rate :
  Ruralis.agroquimicos (ruralis_db (glifosato_ars 20)) !! 1%Z = Some (glifosato_ars 20)
  ∧ Ruralis.dosis scenario_request * Ruralis.hectareas scenario_request
      == Ruralis.cantidad (glifosato_ars 20)
  ∧ request (Ruralis.aplicar_agroquimico (world_usd PyNone) 1 scenario_request)
        (ruralis_db (glifosato_ars 20))
      = (Raise TypeError, ruralis_db (glifosato_ars 20))
  ∧ Ruralis.gastos (ruralis_db (glifosato_ars 20)) = ∅.
Proof. repeat split. Qed.

(** ** C10: a negative dose *)

(** C10, as stated, fails on a product whose unit price is 0: the application
    of a negative quantity is accepted, and the cost stored is 0, not a
    negative number. *)
Lemma negative_dose_counterexample :
  ∃ s g db',
    Legacy.agroquimicos (legacy_db muestra_gratis) !! 1%Z = Some muestra_gratis
    ∧ 0 <= Legacy.cantidad muestra_gratis
    ∧ (-2) * 10 < 0
    ∧ request (Legacy.aplicar_agroquimico "2025-03-01 10:00:00" 1
                 (Legacy.mkAplicar (-2) 10)) (legacy_db muestra_gratis)
        = (Ok (Legacy.AplicacionRegistrada s g), db')
    ∧ Legacy.g_costo_total g == 0
    ∧ ¬ Legacy.g_costo_total g < 0.
Proof.
  do 3 eexists. split; [reflexivity|]. split; [by vm_compute|].
  split; [by vm_compute|]. split; [vm_compute; reflexivity|].
  split; [reflexivity|]. by vm_compute.
Qed.

(** C10, amended. On a stored agrochemical with a non-negative quantity, a
    request whose [dose * hectares] is negative passes the stock check.  The
    application is then registered (in the newer application when the product
    is not priced in ARS or the rate is a number that a float can hold), the
    stored quantity grows by [|dose * hectares|], and the new expense row has
    the negative [cantidad_aplicada] and the cost
    [precio_unitario * dose * hectares] (divided by 1000 in the older
    application), which is never positive when the unit price is positive. *)
Theorem negative_dose_accepted :
  (∀ now id rq db a,
     Legacy.agroquimicos db !! id = Some a →
     0 <= Legacy.cantidad a →
     Legacy.dosis_por_ha rq * Legacy.hectareas rq < 0 →
     let n := Legacy.dosis_por_ha rq * Legacy.hectareas rq in
     ∃ s g db' a' rec,
       request (Legacy.aplicar_agroquimico now id rq) db
         = (Ok (Legacy.AplicacionRegistrada s g), db')
       ∧ Legacy.agroquimicos db' !! id = Some a'
       ∧ Legacy.cantidad a' == Legacy.cantidad a + Qabs n
       ∧ Legacy.gastos db !! Legacy.g_id g = None
       ∧ Legacy.gastos db' !! Legacy.g_id g = Some rec
       ∧ Legacy.cantidad_aplicada rec = n
       ∧ Legacy.costo_total rec = Legacy.precio_unitario a * (n / 1000)
       ∧ (0 < Legacy.precio_unitario a → Legacy.costo_total rec <= 0))
  ∧
  (∀ w id rq db a,
     Ruralis.agroquimicos db !! id = Some a →
     0 <= Ruralis.cantidad a →
     Ruralis.dosis rq * Ruralis.hectareas rq < 0 →
     rate_usable w a →
     let n := Ruralis.dosis rq * Ruralis.hectareas rq in
     ∃ s g db' a' rec,
       request (Ruralis.aplicar_agroquimico w id rq) db
         = (Ok (Ruralis.AplicacionRegistrada s g), db')
       ∧ Ruralis.agroquimicos db' !! id = Some a'
       ∧ Ruralis.cantidad a' == Ruralis.cantidad a + Qabs n
       ∧ Ruralis.gastos db !! Ruralis.g_id g = None
       ∧ Ruralis.gastos db' !! Ruralis.g_id g = Some rec
       ∧ Ruralis.cantidad_aplicada rec = n
       ∧ Ruralis.costo_total_ars rec = Ruralis.precio_unitario a * n
       ∧ (0 < Ruralis.precio_unitario a → Ruralis.costo_total_ars rec <= 0)).
Proof.
  split.
  - intros now id rq db a Ha Hq Hn n.
    assert (Hgrow : Legacy.cantidad a - n == Legacy.cantidad a + Qabs n).
    { fold n in Hn. clearbody n. pose proof (Qabs_neg n ltac:(lra)) as Habs. lra. }
    assert (Hneg : 0 < Legacy.precio_unitario a →
                   Legacy.precio_unitario a * (n / 1000) <= 0).
    { fold n in Hn. clearbody n. intros Hp.
      assert (Hd : n / 1000 < 0) by (apply Qlt_shift_div_r; [reflexivity | lra]).
      nra. }
    destruct (legacy_apply_succeeds now id rq db a Ha) as [Hfresh Hrun]; [lra|].
    do 5 eexists. split; [exact Hrun|]. cbn.
    split; [apply lookup_insert_eq|]. cbn.
    split; [exact Hgrow|].
    split; [exact Hfresh|]. split; [apply lookup_insert_eq|]. cbn.
    split; [reflexivity|]. split; [reflexivity|].
    exact Hneg.
  - intros w id rq db a Ha Hq Hn Hrate n.
    assert (Hgrow : Ruralis.cantidad a - n == Ruralis.cantidad a + Qabs n).
    { fold n in Hn. clearbody n. pose proof (Qabs_neg n ltac:(lra)) as Habs. lra. }
    assert (Hneg : 0 < Ruralis.precio_unitario a →
                   Ruralis.precio_unitario a * n <= 0).
    { fold n in Hn. clearbody n. intros Hp. nra. }
    destruct (rate_usable_Ok w a (Ruralis.precio_unitario a * n) Hrate) as [usd Husd].
    destruct (ruralis_apply_succeeds w id rq db a usd Ha) as [Hfresh Hrun];
      [lra | exact Husd |].
    do 5 eexists. split; [exact Hrun|]. cbn.
    split; [apply lookup_insert_eq|]. cbn.
    split; [exact Hgrow|].
    split; [exact Hfresh|]. split; [apply lookup_insert_eq|]. cbn.
    split; [reflexivity|]. split; [reflexivity|].
    exact Hneg.
Qed.

Lemma negative_dose_accepted_witness :
  (let n := (-2) * 10 in
   ∃ s g db' a' rec,
     request (Legacy.aplicar_agroquimico "2025-03-01 10:00:00" 1
                (Legacy.mkAplicar (-2) 10)) (legacy_db (glifosato 100))
       = (Ok (Legacy.AplicacionRegistrada s g), db')
     ∧ Legacy.agroquimicos db' !! 1%Z = Some a'
     ∧ Legacy.cantidad a' == 100 + Qabs n
     ∧ Legacy.gastos (legacy_db (glifosato 100)) !! Legacy.g_id g = None
     ∧ Legacy.gastos db' !! Legacy.g_id g = Some rec
     ∧ Legacy.cantidad_aplicada rec = n
     ∧ Legacy.costo_total rec = 50 * (n / 1000)
     ∧ (0 < 50 → Legacy.costo_total rec <= 0))
  ∧
  (let n := (-2) * 10 in
   ∃ s g db' a' rec,
     request (Ruralis.aplicar_agroquimico scenario_world 1
                (Ruralis.mkAplicar (-2) 10)) scenario_db
       = (Ok (Ruralis.AplicacionRegistrada s g), db')
     ∧ Ruralis.agroquimicos db' !! 1%Z = Some a'
     ∧ Ruralis.cantidad a' == 100 + Qabs n
     ∧ Ruralis.gastos scenario_db !! Ruralis.g_id g = None
     ∧ Ruralis.gastos db' !! Ruralis.g_id g = Some rec
     ∧ Ruralis.cantidad_aplicada rec = n
     ∧ Ruralis.costo_total_ars rec = 50 * n
     ∧ (0 < 50 → Ruralis.costo_total_ars rec <= 0)).
Proof.
  split.
  - apply (proj1 negative_dose_accepted "2025-03-01 10:00:00" 1%Z
             (Legacy.mkAplicar (-2) 10) (legacy_db (glifosato 100)) (glifosato 100));
      [reflexivity | by vm_compute | reflexivity].
  - apply (proj2 negative_dose_accepted scenario_world 1%Z
             (Ruralis.mkAplicar (-2) 10) scenario_db (glifosato_ars 100));
      [reflexivity | by vm_compute | reflexivity |].
    right. exists 0.001. split; reflexivity.
Defined.

(** ** C6: the exchange-rate lookup *)

(** The answer of the service, case by case. *)
Lemma obtener_tipo_cambio_cases w :
  match requests_get w with
  | Raise _ => Ruralis.obtener_tipo_cambio w = PyNum 0.001
  | Ok response =>
      match json response with
      | Raise _ => Ruralis.obtener_tipo_cambio w = PyNum 0.001
      | Ok (PyDict data) =>
          match data !! "rates" with
          | Some (PyDict rates) =>
              match rates !! "USD" with
              | Some v => Ruralis.obtener_tipo_cambio w = v
              | None => Ruralis.obtener_tipo_cambio w = PyNum 0.001
              end
          | _ => Ruralis.obtener_tipo_cambio w = PyNum 0.001
          end
      | Ok _ => Ruralis.obtener_tipo_cambio w = PyNum 0.001
      end
  end.
Proof.
  unfold Ruralis.obtener_tipo_cambio, Ruralis.obtener_tipo_cambio_try.
  destruct (requests_get w) as [response|]; [|reflexivity]. cbn.
  destruct (json response) as [data|]; [|reflexivity]. cbn.
  destruct data as [| | | | |data]; try reflexivity. cbn.
  destruct (data !! "rates") as [rates|]; [|reflexivity]. cbn.
  destruct rates as [| | | | |rates]; try reflexivity. cbn.
  destruct (rates !! "USD"); reflexivity.
Qed.

(** The failures that [obtener_tipo_cambio] handles: the HTTP call raises, the
    body is not JSON, the body has no "rates" entry, the "rates" entry is not
    an object or has no "USD" key.  In each the value returned is the fallback
    0.001. *)
Lemma obtener_tipo_cambio_fallback w :
  (∀ e, requests_get w = Raise e → Ruralis.obtener_tipo_cambio w = PyNum 0.001)
  ∧ (∀ response e, requests_get w = Ok response → json response = Raise e →
       Ruralis.obtener_tipo_cambio w = PyNum 0.001)
  ∧ (∀ response data e, requests_get w = Ok response → json response = Ok data →
       py_getitem data "rates" = Raise e →
       Ruralis.obtener_tipo_cambio w = PyNum 0.001)
  ∧ (∀ response data rates, requests_get w = Ok response →
       json response = Ok data → py_getitem data "rates" = Ok (PyDict rates) →
       rates !! "USD" = None →
       Ruralis.obtener_tipo_cambio w = PyNum 0.001)
  ∧ (∀ response data rates, requests_get w = Ok response →
       json response = Ok data → py_getitem data "rates" = Ok rates →
       (∀ d, rates ≠ PyDict d) →
       Ruralis.obtener_tipo_cambio w = PyNum 0.001).
Proof.
  unfold Ruralis.obtener_tipo_cambio, Ruralis.obtener_tipo_cambio_try.
  split; [by intros e ->|].
  split; [by intros response e -> ; cbn; intros ->|].
  split; [by intros response data e -> ; cbn; intros ->; cbn; intros ->|].
  split.
  { by intros response data rates -> ; cbn; intros ->; cbn; intros ->; cbn;
      intros ->. }
  intros response data rates -> ; cbn; intros ->; cbn; intros -> Hnd; cbn.
  destruct rates; try reflexivity. by destruct (Hnd d).
Qed.

(** C6 (evaluation at the failing requests). When the service is down, when
    its body is not JSON and when the "rates" object has no "USD" key the
    lookup returns the fallback 0.001.  With the answer
    [{"rates": {"USD": null}}] the key is present: the lookup returns [None],
    not the fallback, and the application of the first scenario (dose 2 on 10
    hectares, unit price 50, 100 l in stock), which has passed the stock check,
    raises [TypeError] and stores nothing.  With the answer
    [{"rates": {"USD": -1}}] the same application is registered with the cost
    in USD -1000. *)
Theorem exchange_rate_value_unchecked :
  Ruralis.obtener_tipo_cambio world_down = PyNum 0.001
  ∧ Ruralis.obtener_tipo_cambio world_garbled = PyNum 0.001
  ∧ Ruralis.obtener_tipo_cambio world_no_usd = PyNum 0.001
  ∧ Ruralis.agroquimicos scenario_db !! 1%Z = Some (glifosato_ars 100)
  ∧ 0 < Ruralis.dosis scenario_request
  ∧ 0 < Ruralis.hectareas scenario_request
  ∧ 0 <= Ruralis.precio_unitario (glifosato_ars 100)
  ∧ ¬ Ruralis.cantidad (glifosato_ars 100)
        < Ruralis.dosis scenario_request * Ruralis.hectareas scenario_request
  ∧ Ruralis.obtener_tipo_cambio (world_usd PyNone) = PyNone
  ∧ request (Ruralis.aplicar_agroquimico (world_usd PyNone) 1 scenario_request)
        scenario_db
      = (Raise TypeError, scenario_db)
  ∧ ∃ s g db',
      request (Ruralis.aplicar_agroquimico (world_usd (PyNum (-1))) 1 scenario_request)
          scenario_db
        = (Ok (Ruralis.AplicacionRegistrada s g), db')
      ∧ Ruralis.g_costo_total_usd g = -1000
      ∧ Ruralis.g_costo_total_usd g < 0.
Proof.
  split; [reflexivity|]. split; [reflexivity|]. split; [reflexivity|].
  split; [reflexivity|]. split; [reflexivity|]. split; [reflexivity|].
  split; [by vm_compute|]. split; [by vm_compute|].
  split; [reflexivity|]. split; [reflexivity|].
  do 3 eexists. split; [vm_compute; reflexivity|]. split; reflexivity.
Qed.

(** ** C4: the cost report *)

Lemma func_not_bound : "func" ∉ Ruralis.module_globals.
Proof. apply (bool_decide_eq_false_1 _). vm_compute. reflexivity. Qed.

Lemma get_costo_total_raises db :
  request (Ruralis.get_costo_total Ruralis.module_globals) db
    = (Raise (NameError "func"), db).
Proof.
  unfold Ruralis.get_costo_total, Ruralis.global. run_request.
  destruct (decide ("func" ∈ Ruralis.module_globals)) as [Hin|_]; [|reflexivity].
  destruct (func_not_bound Hin).
Qed.

(** C4 (evaluation on every store). [get_costo_total] evaluates the name
    [func], which [src/ruralis/main.py] never imports or defines: the request
    raises [NameError] before any query, whatever the expense table holds, and
    returns no totals; on the empty table the answer is the exception too,
    not the zero totals. *)
Theorem cost_report_raises_name_error :
  (∀ db,
     request (Ruralis.get_costo_total Ruralis.module_globals) db
       = (Raise (NameError "func"), db))
  ∧ fst (request (Ruralis.get_costo_total Ruralis.module_globals)
           (Ruralis.mkDB ∅ ∅ ∅))
      = Raise (NameError "func").
Proof.
  split; [exact get_costo_total_raises|].
  by rewrite get_costo_total_raises.
Qed.

(** What the function would return if [func] were bound to SQLAlchemy's
    [func]: the two sums, and zeros on an empty expense table. *)
Lemma cost_report_with_func globals db :
  "func" ∈ globals →
  request (Ruralis.get_costo_total globals) db
    = (Ok (Ruralis.CostoTotal
             (or_0 (sql_sum Ruralis.costo_total_ars (Ruralis.gastos db)))
             (or_0 (sql_sum Ruralis.costo_total_usd (Ruralis.gastos db)))),
       db).
Proof.
  intros Hin. unfold Ruralis.get_costo_total, Ruralis.global. run_request.
  destruct (decide ("func" ∈ globals)); [reflexivity | contradiction].
Qed.

Lemma cost_report_with_func_empty globals db :
  "func" ∈ globals → Ruralis.gastos db = ∅ →
  request (Ruralis.get_costo_total globals) db = (Ok (Ruralis.CostoTotal 0 0), db).
Proof.
  intros Hin Hempty. rewrite cost_report_with_func by done.
  unfold sql_sum. rewrite Hempty. reflexivity.
Qed.

(** The sum of a column grows by the value of an inserted row. *)
Lemma sql_sum_insert {A} (col : A → Q) (t : gmap Z A) (i : Z) (row : A) :
  t !! i = None →
  ∃ total,
    sql_sum col (<[i := row]> t) = Some total
    ∧ total == col row + default 0 (sql_sum col t).
Proof.
  intros Hi. unfold sql_sum.
  destruct (decide (<[i:=row]> t = ∅)) as [He|_].
  { by apply insert_non_empty in He. }
  eexists. split; [reflexivity|].
  assert (Hins : map_fold (λ _ r acc, col r + acc) 0 (<[i:=row]> t)
                 == col row + map_fold (λ _ r acc, col r + acc) 0 t).
  { apply (map_fold_insert Qeq (λ _ r acc, col r + acc)); [| |exact Hi].
    - intros j z x y Hxy. by rewrite Hxy.
    - intros j1 j2 z1 z2 y _ _ _. lra. }
  destruct (decide (t = ∅)) as [->|_]; cbn.
  - rewrite insert_empty, map_fold_singleton. reflexivity.
  - exact Hins.
Qed.

(** ** C8: the stock never goes negative *)

Lemma legacy_step_stock_ok o db :
  legacy_admissible o → legacy_stock_ok db →
  legacy_stock_ok (snd (request (legacy_handler o) db)).
Proof.
  unfold legacy_stock_ok. intros Hadm Hok. destruct o; cbn [legacy_handler].
  - by rewrite legacy_create_user_agroquimicos.
  - exact Hok.
  - rewrite legacy_delete_user_eq. by destruct (Legacy.users db !! user_id).
  - rewrite legacy_create_agroquimico_eq. cbn. by apply map_Forall_insert_2.
  - exact Hok.
  - rewrite legacy_delete_agroquimico_eq.
    destruct (Legacy.agroquimicos db !! agroquimico_id); [|done].
    cbn. by apply map_Forall_delete.
  - rewrite legacy_aplicar_eq.
    destruct (Legacy.agroquimicos db !! agroquimico_id) as [a|] eqn:Ha; [|done].
    cbn zeta. destruct (Qlt_le_dec _ _) as [|Hle]; [done|].
    cbn. apply map_Forall_insert_2; [|done]. cbn. lra.
  - exact Hok.
Qed.

Lemma ruralis_step_stock_ok o db :
  ruralis_admissible o → ruralis_stock_ok db →
  ruralis_stock_ok (snd (request (ruralis_handler o) db)).
Proof.
  unfold ruralis_stock_ok. intros Hadm Hok. destruct o; cbn [ruralis_handler].
  - rewrite ruralis_create_agroquimico_eq. cbn. by apply map_Forall_insert_2.
  - exact Hok.
  - rewrite ruralis_aplicar_eq.
    destruct (Ruralis.agroquimicos db !! agroquimico_id) as [a|] eqn:Ha; [|done].
    cbn zeta. destruct (Qlt_le_dec _ _) as [|Hle]; [done|].
    destruct (ruralis_usd _ _ _); [|done].
    cbn. apply map_Forall_insert_2; [|done]. cbn. lra.
  - exact Hok.
  - by rewrite get_costo_total_raises.
Qed.

Lemma legacy_run_stock_ok ops db :
  legacy_stock_ok db → Forall legacy_admissible ops →
  legacy_stock_ok (legacy_run ops db).
Proof.
  intros Hok Hops. revert db Hok.
  induction Hops as [|o ops Ho _ IH]; intros db Hok; [exact Hok|].
  cbn. apply IH. by apply legacy_step_stock_ok.
Qed.

Lemma ruralis_run_stock_ok ops db :
  ruralis_stock_ok db → Forall ruralis_admissible ops →
  ruralis_stock_ok (ruralis_run ops db).
Proof.
  intros Hok Hops. revert db Hok.
  induction Hops as [|o ops Ho _ IH]; intros db Hok; [exact Hok|].
  cbn. apply IH. by apply ruralis_step_stock_ok.
Qed.

Lemma legacy_step_stocked i o db :
  legacy_keeps i o → legacy_stocked i db →
  legacy_stocked i (snd (request (legacy_handler o) db)).
Proof.
  intros Hk (a & Ha & Hq). unfold legacy_stocked.
  destruct o; cbn [legacy_handler].
  - rewrite legacy_create_user_agroquimicos. eauto.
  - eauto.
  - rewrite legacy_delete_user_eq. destruct (Legacy.users db !! user_id); eauto.
  - rewrite legacy_create_agroquimico_eq. cbn. exists a. split; [|done].
    rewrite lookup_insert_ne; [done|].
    intros Heq. rewrite <- Heq, next_id_fresh in Ha. discriminate.
  - eauto.
  - rewrite legacy_delete_agroquimico_eq. cbn in Hk.
    destruct (Legacy.agroquimicos db !! agroquimico_id); [|eauto].
    cbn. exists a. by rewrite lookup_delete_ne.
  - rewrite legacy_aplicar_eq.
    destruct (Legacy.agroquimicos db !! agroquimico_id) as [b|] eqn:Hb; [|eauto].
    cbn zeta. destruct (Qlt_le_dec _ _) as [|Hle]; [eauto|]. cbn.
    destruct (decide (agroquimico_id = i)) as [->|Hne].
    + rewrite lookup_insert_eq. eexists. split; [reflexivity|]. cbn. lra.
    + rewrite lookup_insert_ne by done. eauto.
  - eauto.
Qed.

Lemma ruralis_step_stocked i o db :
  ruralis_keeps o → ruralis_stocked i db →
  ruralis_stocked i (snd (request (ruralis_handler o) db)).
Proof.
  intros Hk (a & Ha & Hq). unfold ruralis_stocked.
  destruct o; cbn [ruralis_handler].
  - rewrite ruralis_create_agroquimico_eq. cbn. exists a. split; [|done].
    rewrite lookup_insert_ne; [done|].
    intros Heq. rewrite <- Heq, next_id_fresh in Ha. discriminate.
  - eauto.
  - rewrite ruralis_aplicar_eq.
    destruct (Ruralis.agroquimicos db !! agroquimico_id) as [b|] eqn:Hb; [|eauto].
    cbn zeta. destruct (Qlt_le_dec _ _) as [|Hle]; [eauto|].
    destruct (ruralis_usd _ _ _); [|eauto]. cbn.
    destruct (decide (agroquimico_id = i)) as [->|Hne].
    + rewrite lookup_insert_eq. eexists. split; [reflexivity|]. cbn. lra.
    + rewrite lookup_insert_ne by done. eauto.
  - eauto.
  - rewrite get_costo_total_raises. eauto.
Qed.

Lemma legacy_run_stocked i ops db :
  legacy_stocked i db → Forall (legacy_keeps i) ops →
  legacy_stocked i (legacy_run ops db).
Proof.
  intros Hst Hops. revert db Hst.
  induction Hops as [|o ops Ho _ IH]; intros db Hst; [exact Hst|].
  cbn. apply IH. by apply legacy_step_stocked.
Qed.

Lemma ruralis_run_stocked i ops db :
  ruralis_stocked i db → Forall ruralis_keeps ops →
  ruralis_stocked i (ruralis_run ops db).
Proof.
  intros Hst Hops. revert db Hst.
  induction Hops as [|o ops Ho _ IH]; intros db Hst; [exact Hst|].
  cbn. apply IH. by apply ruralis_step_stocked.
Qed.

(** C8. In both applications the stock stays non-negative along every
    sequence of requests (users and agrochemicals created, listed and deleted,
    expenses listed, the report, applications with positive dose and
    hectares):
    - an agrochemical stored with a non-negative quantity is, as long as it is
      not deleted, still stored with a non-negative quantity after the
      sequence, whatever else is created, deleted or applied;
    - if every stored agrochemical has a non-negative quantity and the
      agrochemicals created in the sequence have one too, every agrochemical
      stored after the sequence has a non-negative quantity;
    - an application that would leave a stored quantity below zero gets the
      error "Stock insuficiente" and leaves the store as it was. *)
Theorem stock_never_negative :
  (∀ i ops db,
     legacy_stocked i db → Forall (legacy_keeps i) ops →
     legacy_stocked i (legacy_run ops db))
  ∧
  (∀ ops db,
     legacy_stock_ok db → Forall legacy_admissible ops →
     legacy_stock_ok (legacy_run ops db))
  ∧
  (∀ now id rq db a,
     Legacy.agroquimicos db !! id = Some a →
     Legacy.cantidad a - Legacy.dosis_por_ha rq * Legacy.hectareas rq < 0 →
     request (Legacy.aplicar_agroquimico now id rq) db
       = (Ok (Legacy.Error "Stock insuficiente"), db))
  ∧
  (∀ i ops db,
     ruralis_stocked i db → Forall ruralis_keeps ops →
     ruralis_stocked i (ruralis_run ops db))
  ∧
  (∀ ops db,
     ruralis_stock_ok db → Forall ruralis_admissible ops →
     ruralis_stock_ok (ruralis_run ops db))
  ∧
  (∀ w id rq db a,
     Ruralis.agroquimicos db !! id = Some a →
     Ruralis.cantidad a - Ruralis.dosis rq * Ruralis.hectareas rq < 0 →
     request (Ruralis.aplicar_agroquimico w id rq) db
       = (Ok (Ruralis.Error "Stock insuficiente"), db)).
Proof.
  split; [exact legacy_run_stocked|].
  split; [exact legacy_run_stock_ok|]. split.
  { intros now id rq db a Ha Hneg. rewrite legacy_aplicar_eq, Ha. cbn zeta.
    destruct (Qlt_le_dec _ _) as [_|Hle]; [done|]. exfalso. lra. }
  split; [exact ruralis_run_stocked|].
  split; [exact ruralis_run_stock_ok|].
  intros w id rq db a Ha Hneg. rewrite ruralis_aplicar_eq, Ha. cbn zeta.
  destruct (Qlt_le_dec _ _) as [_|Hle]; [done|]. exfalso. lra.
Qed.

Lemma stock_never_negative_witness :
  legacy_stocked 1 (legacy_run legacy_tail (legacy_db (glifosato 100)))
  ∧ legacy_stock_ok (legacy_run legacy_session (Legacy.mkDB ∅ ∅ ∅))
  ∧ request (Legacy.aplicar_agroquimico "2025-03-01 10:00:00" 1
               (Legacy.mkAplicar 2 10)) (legacy_db (glifosato 5))
      = (Ok (Legacy.Error "Stock insuficiente"), legacy_db (glifosato 5))
  ∧ ruralis_stocked 1 (ruralis_run ruralis_tail (ruralis_db (glifosato_ars 100)))
  ∧ ruralis_stock_ok (ruralis_run ruralis_session (Ruralis.mkDB ∅ ∅ ∅))
  ∧ request (Ruralis.aplicar_agroquimico scenario_world 1
               (Ruralis.mkAplicar 2 10)) (ruralis_db (glifosato_ars 5))
      = (Ok (Ruralis.Error "Stock insuficiente"), ruralis_db (glifosato_ars 5)).
Proof.
  destruct stock_never_negative as (HLi & HL & HLr & HRi & HR & HRr).
  split.
  { apply HLi; [exists (glifosato 100); split; [reflexivity | by vm_compute]|].
    unfold legacy_tail.
    repeat (apply Forall_cons; split; [cbn; try split; by vm_compute|]).
    apply Forall_nil_2. }
  split.
  { apply HL; [apply map_Forall_empty|].
    unfold legacy_session.
    repeat (apply Forall_cons; split; [cbn; try split; by vm_compute|]).
    apply Forall_nil_2. }
  split.
  { apply (HLr _ 1%Z _ _ (glifosato 5)); [reflexivity | by vm_compute]. }
  split.
  { apply HRi; [exists (glifosato_ars 100); split; [reflexivity | by vm_compute]|].
    unfold ruralis_tail.
    repeat (apply Forall_cons; split; [cbn; try split; by vm_compute|]).
    apply Forall_nil_2. }
  split.
  { apply HR; [apply map_Forall_empty|].
    unfold ruralis_session.
    repeat (apply Forall_cons; split; [cbn; try split; by vm_compute|]).
    apply Forall_nil_2. }
  apply (HRr _ 1%Z _ _ (glifosato_ars 5)); [reflexivity | by vm_compute].
Defined.

Example legacy_session_stock :
  Legacy.cantidad <$> Legacy.agroquimicos (legacy_run legacy_session (Legacy.mkDB ∅ ∅ ∅))
    = {[ 2%Z := 5 ]}
  ∧ size (Legacy.gastos (legacy_run legacy_session (Legacy.mkDB ∅ ∅ ∅))) = 2%nat.
Proof. split; by vm_compute. Qed.

Example ruralis_session_stock :
  (λ a, Qred (Ruralis.cantidad a))
    <$> Ruralis.agroquimicos (ruralis_run ruralis_session (Ruralis.mkDB ∅ ∅ ∅))
    = {[ 1%Z := 0 ]}
  ∧ size (Ruralis.gastos (ruralis_run ruralis_session (Ruralis.mkDB ∅ ∅ ∅))) = 2%nat.
Proof. split; by vm_compute. Qed.

(** * Further properties of the two applications *)

(** ** Creating rows *)

Lemma legacy_create_user_eq u db :
  request (Legacy.create_user u) db =
  if bool_decide (Legacy.email_taken (Legacy.email u) (Legacy.users db))
  then (Raise IntegrityError, db)
  else (Ok (Legacy.UsuarioCreado (next_id (Legacy.users db)) u),
        Legacy.mkDB (<[next_id (Legacy.users db) := u]> (Legacy.users db))
          (Legacy.agroquimicos db) (Legacy.gastos db)).
Proof.
  unfold Legacy.create_user. run_request. destruct u as [n e]. cbn.
  destruct (bool_decide _); reflexivity.
Qed.

(** X1. In both applications [create_agroquimico] stores the new row under an
    id that no stored agrochemical had, returns that id with the row, keeps
    every agrochemical that was stored, and leaves the other tables alone. *)
Theorem create_agroquimico_fresh_id :
  (∀ a db,
     ∃ id db',
       request (Legacy.create_agroquimico a) db
         = (Ok (Legacy.AgroquimicoAgregado id a), db')
       ∧ Legacy.agroquimicos db !! id = None
       ∧ Legacy.agroquimicos db' !! id = Some a
       ∧ (∀ j, j ≠ id → Legacy.agroquimicos db' !! j = Legacy.agroquimicos db !! j)
       ∧ size (Legacy.agroquimicos db') = S (size (Legacy.agroquimicos db))
       ∧ Legacy.users db' = Legacy.users db
       ∧ Legacy.gastos db' = Legacy.gastos db)
  ∧
  (∀ a db,
     ∃ id db',
       request (Ruralis.create_agroquimico a) db
         = (Ok (Ruralis.AgroquimicoAgregado id a), db')
       ∧ Ruralis.agroquimicos db !! id = None
       ∧ Ruralis.agroquimicos db' !! id = Some a
       ∧ (∀ j, j ≠ id → Ruralis.agroquimicos db' !! j = Ruralis.agroquimicos db !! j)
       ∧ size (Ruralis.agroquimicos db') = S (size (Ruralis.agroquimicos db))
       ∧ Ruralis.users db' = Ruralis.users db
       ∧ Ruralis.gastos db' = Ruralis.gastos db).
Proof.
  split; intros a db; do 2 eexists.
  - rewrite legacy_create_agroquimico_eq. split; [reflexivity|]. cbn.
    split; [apply next_id_fresh|]. split; [apply lookup_insert_eq|].
    split; [intros j Hj; by apply lookup_insert_ne|].
    split; [apply map_size_insert_None, next_id_fresh|]. done.
  - rewrite ruralis_create_agroquimico_eq. split; [reflexivity|]. cbn.
    split; [apply next_id_fresh|]. split; [apply lookup_insert_eq|].
    split; [intros j Hj; by apply lookup_insert_ne|].
    split; [apply map_size_insert_None, next_id_fresh|]. done.
Qed.

(** X2. [create_user] on an e-mail that no stored user has stores the user
    under an id that was free and keeps every other row; on an e-mail that a
    stored user already has, the insert violates the unique index: the request
    raises [IntegrityError] and the store is unchanged. *)
Theorem create_user_unique_email :
  (∀ u db,
     ¬ Legacy.email_taken (Legacy.email u) (Legacy.users db) →
     ∃ id db',
       request (Legacy.create_user u) db = (Ok (Legacy.UsuarioCreado id u), db')
       ∧ Legacy.users db !! id = None
       ∧ Legacy.users db' !! id = Some u
       ∧ (∀ j, j ≠ id → Legacy.users db' !! j = Legacy.users db !! j)
       ∧ Legacy.agroquimicos db' = Legacy.agroquimicos db
       ∧ Legacy.gastos db' = Legacy.gastos db)
  ∧
  (∀ u db i v,
     Legacy.users db !! i = Some v → Legacy.email v = Legacy.email u →
     request (Legacy.create_user u) db = (Raise IntegrityError, db)).
Proof.
  split.
  - intros u db Hfree. do 2 eexists. rewrite legacy_create_user_eq.
    rewrite bool_decide_eq_false_2 by done. split; [reflexivity|]. cbn.
    split; [apply next_id_fresh|]. split; [apply lookup_insert_eq|].
    split; [intros j Hj; by apply lookup_insert_ne|]. done.
  - intros u db i v Hi He. rewrite legacy_create_user_eq.
    rewrite bool_decide_eq_true_2; [reflexivity|]. exists i, v. done.
Qed.

Lemma create_user_unique_email_witness :
  (∃ id db',
     request (Legacy.create_user marta) two_users
       = (Ok (Legacy.UsuarioCreado id marta), db')
     ∧ Legacy.users two_users !! id = None
     ∧ Legacy.users db' !! id = Some marta
     ∧ (∀ j, j ≠ id → Legacy.users db' !! j = Legacy.users two_users !! j)
     ∧ Legacy.agroquimicos db' = Legacy.agroquimicos two_users
     ∧ Legacy.gastos db' = Legacy.gastos two_users)
  ∧ request (Legacy.create_user otra_ana) two_users = (Raise IntegrityError, two_users).
Proof.
  split.
  - apply (proj1 create_user_unique_email marta two_users).
    apply (bool_decide_eq_false_1 _). vm_compute. reflexivity.
  - apply (proj2 create_user_unique_email otra_ana two_users 1%Z ana); reflexivity.
Defined.

(** ** An application on an id that is not stored *)

(** X4. In both applications an apply request on an id that the driver
    accepts ([int64]) and that no stored agrochemical has returns the body
    [{"error": "Agroquímico no encontrado"}] and leaves the store as it was,
    whatever the dose, the area and (in the newer application) the answer of
    the exchange-rate service. *)
Theorem apply_unknown_id :
  (∀ now id rq db,
     int64 id →
     Legacy.agroquimicos db !! id = None →
     request (Legacy.aplicar_agroquimico now id rq) db
       = (Ok (Legacy.Error "Agroquímico no encontrado"), db))
  ∧
  (∀ w id rq db,
     int64 id →
     Ruralis.agroquimicos db !! id = None →
     request (Ruralis.aplicar_agroquimico w id rq) db
       = (Ok (Ruralis.Error "Agroquímico no encontrado"), db)).
Proof.
  split.
  - intros now id rq db _ H. by rewrite legacy_aplicar_eq, H.
  - intros w id rq db _ H. by rewrite ruralis_aplicar_eq, H.
Qed.

Lemma apply_unknown_id_witness :
  request (Legacy.aplicar_agroquimico "2025-03-01 10:00:00" 7 legacy_request)
      (legacy_db (glifosato 100))
    = (Ok (Legacy.Error "Agroquímico no encontrado"), legacy_db (glifosato 100))
  ∧ request (Ruralis.aplicar_agroquimico (world_usd PyNone) 7 scenario_request)
        scenario_db
      = (Ok (Ruralis.Error "Agroquímico no encontrado"), scenario_db).
Proof.
  split.
  - apply (proj1 apply_unknown_id); [by vm_compute | reflexivity].
  - apply (proj2 apply_unknown_id); [by vm_compute | reflexivity].
Defined.

(** ** E-mails stay unique *)

Lemma legacy_step_emails_unique o db :
  legacy_emails_unique db →
  legacy_emails_unique (snd (request (legacy_handler o) db)).
Proof.
  unfold legacy_emails_unique. intros Huniq. destruct o; cbn [legacy_handler].
  - rewrite legacy_create_user_eq.
    destruct (bool_decide _) eqn:Htaken; [exact Huniq|].
    apply bool_decide_eq_false_1 in Htaken. cbn.
    intros i j x y Hi Hj He.
    rewrite lookup_insert in Hi. rewrite lookup_insert in Hj.
    destruct (decide (next_id (Legacy.users db) = i)) as [<-|Hni];
      destruct (decide (next_id (Legacy.users db) = j)) as [<-|Hnj]; try done.
    + injection Hi as <-. destruct Htaken. exists j, y. done.
    + injection Hj as <-. destruct Htaken. exists i, x. done.
    + eauto.
  - exact Huniq.
  - rewrite legacy_delete_user_eq.
    destruct (Legacy.users db !! user_id); [|exact Huniq]. cbn.
    intros i j x y Hi Hj He.
    apply lookup_delete_Some in Hi as [_ Hi].
    apply lookup_delete_Some in Hj as [_ Hj]. eauto.
  - exact Huniq.
  - exact Huniq.
  - rewrite legacy_delete_agroquimico_eq.
    destruct (Legacy.agroquimicos db !! agroquimico_id); exact Huniq.
  - rewrite legacy_aplicar_eq.
    destruct (Legacy.agroquimicos db !! agroquimico_id); [|exact Huniq].
    cbn zeta. destruct (Qlt_le_dec _ _); exact Huniq.
  - exact Huniq.
Qed.

(** X3. The e-mails of the stored users stay pairwise distinct along every
    sequence of requests of [src/main.py]: a registration with an e-mail that
    is already stored is refused by the unique index, and no other request
    writes a user. *)
Theorem emails_stay_unique :
  ∀ ops db,
    legacy_emails_unique db → legacy_emails_unique (legacy_run ops db).
Proof.
  induction ops as [|o ops IH]; intros db Huniq; [exact Huniq|].
  cbn. apply IH. by apply legacy_step_emails_unique.
Qed.

Lemma emails_stay_unique_witness :
  legacy_emails_unique
    (legacy_run [LCreateUser ana; LCreateUser otra_ana; LCreateUser luis;
                 LDeleteUser 1; LCreateUser otra_ana] empty_legacy).
Proof.
  apply emails_stay_unique.
  intros i j u v Hi. cbn in Hi. rewrite lookup_empty in Hi. discriminate.
Defined.

Example emails_example :
  Legacy.email <$> Legacy.users
    (legacy_run [LCreateUser ana; LCreateUser otra_ana; LCreateUser luis;
                 LDeleteUser 1; LCreateUser otra_ana] empty_legacy)
  = {[ 2%Z := "luis@campo.ar"; 3%Z := "ana@campo.ar" ]}.
Proof. by vm_compute. Qed.

(** ** The expense history *)

Lemma legacy_step_gastos o db gid g :
  Legacy.gastos db !! gid = Some g →
  Legacy.gastos (snd (request (legacy_handler o) db)) !! gid = Some g.
Proof.
  intros Hg. destruct o; cbn [legacy_handler]; try exact Hg.
  - rewrite legacy_create_user_eq. by destruct (bool_decide _).
  - rewrite legacy_delete_user_eq. by destruct (Legacy.users db !! user_id).
  - rewrite legacy_delete_agroquimico_eq.
    by destruct (Legacy.agroquimicos db !! agroquimico_id).
  - rewrite legacy_aplicar_eq.
    destruct (Legacy.agroquimicos db !! agroquimico_id); [|done].
    cbn zeta. destruct (Qlt_le_dec _ _); [done|]. cbn.
    rewrite lookup_insert_ne; [done|].
    intros Heq. rewrite <- Heq, next_id_fresh in Hg. discriminate.
Qed.

Lemma ruralis_step_gastos o db gid g :
  Ruralis.gastos db !! gid = Some g →
  Ruralis.gastos (snd (request (ruralis_handler o) db)) !! gid = Some g.
Proof.
  intros Hg. destruct o; cbn [ruralis_handler]; try exact Hg.
  - rewrite ruralis_aplicar_eq.
    destruct (Ruralis.agroquimicos db !! agroquimico_id); [|done].
    cbn zeta. destruct (Qlt_le_dec _ _); [done|].
    destruct (ruralis_usd _ _ _); [|done]. cbn.
    rewrite lookup_insert_ne; [done|].
    intros Heq. rewrite <- Heq, next_id_fresh in Hg. discriminate.
Qed.

(** X5. An expense row, once stored, is never changed or removed: after any
    sequence of requests of either application (deleting the agrochemical it
    refers to included) the row is still stored under its id with the same
    fields. *)
Theorem expense_rows_are_kept :
  (∀ ops db gid g,
     Legacy.gastos db !! gid = Some g →
     Legacy.gastos (legacy_run ops db) !! gid = Some g)
  ∧
  (∀ ops db gid g,
     Ruralis.gastos db !! gid = Some g →
     Ruralis.gastos (ruralis_run ops db) !! gid = Some g).
Proof.
  split.
  - induction ops as [|o ops IH]; intros db gid g Hg; [exact Hg|].
    cbn. apply IH. by apply legacy_step_gastos.
  - induction ops as [|o ops IH]; intros db gid g Hg; [exact Hg|].
    cbn. apply IH. by apply ruralis_step_gastos.
Qed.

Lemma expense_rows_are_kept_witness :
  Legacy.gastos
    (legacy_run [LAplicar "2025-03-02 09:00:00" 1 (Legacy.mkAplicar 1 5);
                 LDeleteAgroquimico 1;
                 LCreateAgroquimico (glifosato 7)] legacy_db') !! 1%Z
    = Some (Legacy.mkGasto 1 (2 * 10) (50 * (2 * 10 / 1000)) "2025-03-01 10:00:00")
  ∧ Ruralis.gastos
      (ruralis_run [RAplicar world_down 1 (Ruralis.mkAplicar 1 5);
                    RGetCostoTotal;
                    RCreateAgroquimico (glifosato_ars 7)] scenario_db') !! 1%Z
    = Some (Ruralis.mkGasto 1 (2 * 10) (50 * (2 * 10)) (50 * (2 * 10) * 0.001)
              "2025-03-01 10:00:00").
Proof.
  split.
  - apply (proj1 expense_rows_are_kept). reflexivity.
  - apply (proj2 expense_rows_are_kept). reflexivity.
Defined.

(** ** Handlers that fail *)

(** X6. A handler of either application that raises an exception or returns an
    error body has committed nothing: the store is exactly as it was when the
    handler was entered.  (A handler that has committed returns its body; what
    the framework does with that body afterwards is not the handler's.) *)
Theorem failed_handler_commits_nothing :
  (∀ o db,
     legacy_failed (fst (request (legacy_handler o) db)) →
     snd (request (legacy_handler o) db) = db)
  ∧
  (∀ o db,
     ruralis_failed (fst (request (ruralis_handler o) db)) →
     snd (request (ruralis_handler o) db) = db).
Proof.
  split.
  - intros o db. destruct o; cbn [legacy_handler].
    + rewrite legacy_create_user_eq. by destruct (bool_decide _).
    + done.
    + rewrite legacy_delete_user_eq. by destruct (Legacy.users db !! user_id).
    + rewrite legacy_create_agroquimico_eq. done.
    + done.
    + rewrite legacy_delete_agroquimico_eq.
      by destruct (Legacy.agroquimicos db !! agroquimico_id).
    + rewrite legacy_aplicar_eq.
      destruct (Legacy.agroquimicos db !! agroquimico_id); [|done].
      cbn zeta. by destruct (Qlt_le_dec _ _).
    + done.
  - intros o db. destruct o; cbn [ruralis_handler].
    + rewrite ruralis_create_agroquimico_eq. done.
    + done.
    + rewrite ruralis_aplicar_eq.
      destruct (Ruralis.agroquimicos db !! agroquimico_id); [|done].
      cbn zeta. destruct (Qlt_le_dec _ _); [done|].
      by destruct (ruralis_usd _ _ _).
    + done.
    + by rewrite get_costo_total_raises.
Qed.

Lemma failed_handler_commits_nothing_witness :
  snd (request (legacy_handler (LCreateUser otra_ana)) two_users) = two_users
  ∧ snd (request (legacy_handler (LDeleteUser 7)) two_users) = two_users
  ∧ snd (request (ruralis_handler (RAplicar (world_usd PyNone) 1 scenario_request))
           scenario_db) = scenario_db
  ∧ snd (request (ruralis_handler RGetCostoTotal) scenario_db') = scenario_db'.
Proof.
  split; [apply (proj1 failed_handler_commits_nothing); exact I|].
  split; [apply (proj1 failed_handler_commits_nothing); exact I|].
  split; [apply (proj2 failed_handler_commits_nothing); exact I|].
  apply (proj2 failed_handler_commits_nothing); exact I.
Defined.

(** ** What a registered application stores and reports *)

(** X7. Whenever an apply request of either application is answered with a
    registered application, the stock was sufficient; the store differs from
    the one before in exactly two places: the row of that agrochemical, whose
    quantity is lower by [dose * hectares], and one expense row inserted under
    an id that was free, which carries the agrochemical's id, that quantity
    and the time of the request.  The body returned reports the remaining
    stock and the fields of the stored expense row. *)
Theorem registered_apply_effect :
  (∀ now id rq db s g db',
     request (Legacy.aplicar_agroquimico now id rq) db
       = (Ok (Legacy.AplicacionRegistrada s g), db') →
     ∃ a rec,
       Legacy.agroquimicos db !! id = Some a
       ∧ Legacy.dosis_por_ha rq * Legacy.hectareas rq <= Legacy.cantidad a
       ∧ Legacy.agroquimicos db'
           = <[id := Legacy.set_cantidad
                       (Legacy.cantidad a
                        - Legacy.dosis_por_ha rq * Legacy.hectareas rq) a]>
               (Legacy.agroquimicos db)
       ∧ Legacy.gastos db !! Legacy.g_id g = None
       ∧ Legacy.gastos db' = <[Legacy.g_id g := rec]> (Legacy.gastos db)
       ∧ size (Legacy.gastos db') = S (size (Legacy.gastos db))
       ∧ Legacy.users db' = Legacy.users db
       ∧ Legacy.agroquimico_id rec = id
       ∧ Legacy.cantidad_aplicada rec
           = Legacy.dosis_por_ha rq * Legacy.hectareas rq
       ∧ Legacy.fecha rec = now
       ∧ s = Legacy.mkStock id (Legacy.nombre a)
               (Legacy.cantidad a - Legacy.dosis_por_ha rq * Legacy.hectareas rq)
       ∧ g = Legacy.mkGastoInfo (Legacy.g_id g) (Legacy.cantidad_aplicada rec)
               (Legacy.costo_total rec) (Legacy.fecha rec))
  ∧
  (∀ w id rq db s g db',
     request (Ruralis.aplicar_agroquimico w id rq) db
       = (Ok (Ruralis.AplicacionRegistrada s g), db') →
     ∃ a rec,
       Ruralis.agroquimicos db !! id = Some a
       ∧ Ruralis.dosis rq * Ruralis.hectareas rq <= Ruralis.cantidad a
       ∧ Ruralis.agroquimicos db'
           = <[id := Ruralis.set_cantidad
                       (Ruralis.cantidad a
                        - Ruralis.dosis rq * Ruralis.hectareas rq) a]>
               (Ruralis.agroquimicos db)
       ∧ Ruralis.gastos db !! Ruralis.g_id g = None
       ∧ Ruralis.gastos db' = <[Ruralis.g_id g := rec]> (Ruralis.gastos db)
       ∧ size (Ruralis.gastos db') = S (size (Ruralis.gastos db))
       ∧ Ruralis.users db' = Ruralis.users db
       ∧ Ruralis.agroquimico_id rec = id
       ∧ Ruralis.cantidad_aplicada rec = Ruralis.dosis rq * Ruralis.hectareas rq
       ∧ Ruralis.fecha rec = now w
       ∧ s = Ruralis.mkStock id (Ruralis.nombre a)
               (Ruralis.cantidad a - Ruralis.dosis rq * Ruralis.hectareas rq)
       ∧ g = Ruralis.mkGastoInfo (Ruralis.g_id g) (Ruralis.cantidad_aplicada rec)
               (Ruralis.costo_total_ars rec) (Ruralis.costo_total_usd rec)
               (Ruralis.fecha rec)).
Proof.
  split.
  - intros now id rq db s g db' H. rewrite legacy_aplicar_eq in H.
    destruct (Legacy.agroquimicos db !! id) as [a|]; [|discriminate].
    cbn zeta in H. destruct (Qlt_le_dec _ _) as [|Hle]; [discriminate|].
    injection H as <- <- <-. eexists a, _. cbn.
    split; [done|]. split; [exact Hle|]. split; [done|].
    split; [apply next_id_fresh|]. split; [reflexivity|].
    split; [apply map_size_insert_None, next_id_fresh|]. done.
  - intros w id rq db s g db' H. rewrite ruralis_aplicar_eq in H.
    destruct (Ruralis.agroquimicos db !! id) as [a|]; [|discriminate].
    cbn zeta in H. destruct (Qlt_le_dec _ _) as [|Hle]; [discriminate|].
    destruct (ruralis_usd _ _ _) as [usd|]; [|discriminate].
    injection H as <- <- <-. eexists a, _. cbn.
    split; [done|]. split; [exact Hle|]. split; [done|].
    split; [apply next_id_fresh|]. split; [reflexivity|].
    split; [apply map_size_insert_None, next_id_fresh|]. done.
Qed.

Lemma registered_apply_effect_witness :
  (∃ a rec,
     Legacy.agroquimicos (legacy_db (glifosato 100)) !! 1%Z = Some a
     ∧ 2 * 10 <= Legacy.cantidad a
     ∧ Legacy.agroquimicos legacy_db'
         = <[1%Z := Legacy.set_cantidad (Legacy.cantidad a - 2 * 10) a]>
             (Legacy.agroquimicos (legacy_db (glifosato 100)))
     ∧ Legacy.gastos (legacy_db (glifosato 100)) !! Legacy.g_id legacy_gasto = None
     ∧ Legacy.gastos legacy_db'
         = <[Legacy.g_id legacy_gasto := rec]>
             (Legacy.gastos (legacy_db (glifosato 100)))
     ∧ size (Legacy.gastos legacy_db')
         = S (size (Legacy.gastos (legacy_db (glifosato 100))))
     ∧ Legacy.users legacy_db' = Legacy.users (legacy_db (glifosato 100))
     ∧ Legacy.agroquimico_id rec = 1%Z
     ∧ Legacy.cantidad_aplicada rec = 2 * 10
     ∧ Legacy.fecha rec = "2025-03-01 10:00:00"
     ∧ legacy_stock = Legacy.mkStock 1 (Legacy.nombre a) (Legacy.cantidad a - 2 * 10)
     ∧ legacy_gasto
         = Legacy.mkGastoInfo (Legacy.g_id legacy_gasto) (Legacy.cantidad_aplicada rec)
             (Legacy.costo_total rec) (Legacy.fecha rec))
  ∧
  (∃ a rec,
     Ruralis.agroquimicos scenario_db !! 1%Z = Some a
     ∧ 2 * 10 <= Ruralis.cantidad a
     ∧ Ruralis.agroquimicos scenario_db'
         = <[1%Z := Ruralis.set_cantidad (Ruralis.cantidad a - 2 * 10) a]>
             (Ruralis.agroquimicos scenario_db)
     ∧ Ruralis.gastos scenario_db !! Ruralis.g_id scenario_gasto = None
     ∧ Ruralis.gastos scenario_db'
         = <[Ruralis.g_id scenario_gasto := rec]> (Ruralis.gastos scenario_db)
     ∧ size (Ruralis.gastos scenario_db') = S (size (Ruralis.gastos scenario_db))
     ∧ Ruralis.users scenario_db' = Ruralis.users scenario_db
     ∧ Ruralis.agroquimico_id rec = 1%Z
     ∧ Ruralis.cantidad_aplicada rec = 2 * 10
     ∧ Ruralis.fecha rec = "2025-03-01 10:00:00"
     ∧ scenario_stock
         = Ruralis.mkStock 1 (Ruralis.nombre a) (Ruralis.cantidad a - 2 * 10)
     ∧ scenario_gasto
         = Ruralis.mkGastoInfo (Ruralis.g_id scenario_gasto)
             (Ruralis.cantidad_aplicada rec) (Ruralis.costo_total_ars rec)
             (Ruralis.costo_total_usd rec) (Ruralis.fecha rec)).
Proof.
  split.
  - apply (proj1 registered_apply_effect "2025-03-01 10:00:00" 1%Z legacy_request
             (legacy_db (glifosato 100)) legacy_stock legacy_gasto legacy_db').
    vm_compute. reflexivity.
  - apply (proj2 registered_apply_effect scenario_world 1%Z scenario_request
             scenario_db scenario_stock scenario_gasto scenario_db').
    vm_compute. reflexivity.
Defined.

(** ** When an application is registered *)





(** ** Creating and deleting *)

(** X10. Deleting the row that a create request has just stored, under the id
    that request returned, gives back the store as it was before the create:
    for agrochemicals always, for users when the e-mail was free. *)
Theorem create_then_delete :
  (∀ a db,
     ∃ id db1,
       request (Legacy.create_agroquimico a) db
         = (Ok (Legacy.AgroquimicoAgregado id a), db1)
       ∧ request (Legacy.delete_agroquimico id) db1
         = (Ok (Legacy.Message "Agroquímico eliminado"), db))
  ∧
  (∀ u db,
     ¬ Legacy.email_taken (Legacy.email u) (Legacy.users db) →
     ∃ id db1,
       request (Legacy.create_user u) db = (Ok (Legacy.UsuarioCreado id u), db1)
       ∧ request (Legacy.delete_user id) db1
         = (Ok (Legacy.Message "Usuario eliminado"), db)).
Proof.
  split.
  - intros a db. do 2 eexists. rewrite legacy_create_agroquimico_eq.
    split; [reflexivity|]. rewrite legacy_delete_agroquimico_eq. cbn.
    rewrite lookup_insert_eq, delete_insert_id by apply next_id_fresh.
    by destruct db.
  - intros u db Hfree. do 2 eexists. rewrite legacy_create_user_eq.
    rewrite bool_decide_eq_false_2 by done.
    split; [reflexivity|]. rewrite legacy_delete_user_eq. cbn.
    rewrite lookup_insert_eq, delete_insert_id by apply next_id_fresh.
    by destruct db.
Qed.

Lemma create_then_delete_witness :
  ∃ id db1,
    request (Legacy.create_user marta) two_users
      = (Ok (Legacy.UsuarioCreado id marta), db1)
    ∧ request (Legacy.delete_user id) db1
      = (Ok (Legacy.Message "Usuario eliminado"), two_users).
Proof.
  apply (proj2 create_then_delete marta two_users).
  apply (bool_decide_eq_false_1 _). vm_compute. reflexivity.
Defined.

(** X12. Once a delete request has removed a row, the id is gone: a second
    delete of the same id answers not found and changes nothing, and so does
    an apply request on a deleted agrochemical, while the expense rows that
    refer to it stay in the expense table. *)
Theorem deleted_row_is_gone :
  (∀ i db a,
     Legacy.agroquimicos db !! i = Some a →
     ∃ db1,
       request (Legacy.delete_agroquimico i) db
         = (Ok (Legacy.Message "Agroquímico eliminado"), db1)
       ∧ request (Legacy.delete_agroquimico i) db1
         = (Ok (Legacy.Error "Agroquímico no encontrado"), db1)
       ∧ (∀ now rq,
            request (Legacy.aplicar_agroquimico now i rq) db1
              = (Ok (Legacy.Error "Agroquímico no encontrado"), db1))
       ∧ Legacy.gastos db1 = Legacy.gastos db)
  ∧
  (∀ i db u,
     Legacy.users db !! i = Some u →
     ∃ db1,
       request (Legacy.delete_user i) db
         = (Ok (Legacy.Message "Usuario eliminado"), db1)
       ∧ request (Legacy.delete_user i) db1
         = (Ok (Legacy.Error "Usuario no encontrado"), db1)).
Proof.
  split.
  - intros i db a Ha. eexists. rewrite legacy_delete_agroquimico_eq, Ha.
    split; [reflexivity|]. split.
    { rewrite legacy_delete_agroquimico_eq. cbn. by rewrite lookup_delete_eq. }
    split; [|done].
    intros now rq. rewrite legacy_aplicar_eq. cbn. by rewrite lookup_delete_eq.
  - intros i db u Hu. eexists. rewrite legacy_delete_user_eq, Hu.
    split; [reflexivity|].
    rewrite legacy_delete_user_eq. cbn. by rewrite lookup_delete_eq.
Qed.

Lemma deleted_row_is_gone_witness :
  (∃ db1,
     request (Legacy.delete_agroquimico 1) legacy_db'
       = (Ok (Legacy.Message "Agroquímico eliminado"), db1)
     ∧ request (Legacy.delete_agroquimico 1) db1
       = (Ok (Legacy.Error "Agroquímico no encontrado"), db1)
     ∧ (∀ now rq,
          request (Legacy.aplicar_agroquimico now 1 rq) db1
            = (Ok (Legacy.Error "Agroquímico no encontrado"), db1))
     ∧ Legacy.gastos db1 = Legacy.gastos legacy_db')
  ∧
  (∃ db1,
     request (Legacy.delete_user 2) two_users
       = (Ok (Legacy.Message "Usuario eliminado"), db1)
     ∧ request (Legacy.delete_user 2) db1
       = (Ok (Legacy.Error "Usuario no encontrado"), db1)).
Proof.
  split.
  - apply (proj1 deleted_row_is_gone 1%Z legacy_db' (glifosato (100 - 2 * 10))).
    reflexivity.
  - apply (proj2 deleted_row_is_gone 2%Z two_users
             (Legacy.mkUser "Luis" "luis@campo.ar")).
    reflexivity.
Defined.

(** ** Products priced in USD *)

(** X11. For an agrochemical whose [moneda] is not "ARS", the answer and the
    store after an apply request do not depend on what the exchange-rate
    service answers: two worlds with the same clock give the same result, and
    the request is registered whenever the stock suffices. *)
Theorem usd_product_ignores_exchange_rate :
  ∀ w1 w2 id rq db a,
    Ruralis.agroquimicos db !! id = Some a →
    Ruralis.moneda a ≠ "ARS" →
    now w1 = now w2 →
    request (Ruralis.aplicar_agroquimico w1 id rq) db
      = request (Ruralis.aplicar_agroquimico w2 id rq) db
    ∧ (Ruralis.dosis rq * Ruralis.hectareas rq <= Ruralis.cantidad a →
       ∃ s g db',
         request (Ruralis.aplicar_agroquimico w1 id rq) db
           = (Ok (Ruralis.AplicacionRegistrada s g), db')
         ∧ Ruralis.g_costo_total_usd g = Ruralis.g_costo_total_ars g).
Proof.
  intros w1 w2 id rq db a Ha Hne Hnow. split.
  - rewrite !ruralis_aplicar_eq, Ha. cbn zeta.
    destruct (Qlt_le_dec _ _); [reflexivity|].
    unfold ruralis_usd. rewrite bool_decide_eq_false_2 by done.
    by rewrite Hnow.
  - intros Hle.
    assert (Husd : ruralis_usd w1 a
                     (Ruralis.precio_unitario a
                      * (Ruralis.dosis rq * Ruralis.hectareas rq))
                   = Ok (Ruralis.precio_unitario a
                         * (Ruralis.dosis rq * Ruralis.hectareas rq))).
    { unfold ruralis_usd. by rewrite bool_decide_eq_false_2. }
    destruct (ruralis_apply_succeeds w1 id rq db a _ Ha Hle Husd) as [_ Hrun].
    do 3 eexists. split; [exact Hrun | reflexivity].
Qed.

Lemma usd_product_ignores_exchange_rate_witness :
  request (Ruralis.aplicar_agroquimico (world_usd PyNone) 1 scenario_request)
      (ruralis_db (atrazina_usd 100))
    = request (Ruralis.aplicar_agroquimico scenario_world 1 scenario_request)
        (ruralis_db (atrazina_usd 100))
  ∧ ∃ s g db',
      request (Ruralis.aplicar_agroquimico (world_usd PyNone) 1 scenario_request)
          (ruralis_db (atrazina_usd 100))
        = (Ok (Ruralis.AplicacionRegistrada s g), db')
      ∧ Ruralis.g_costo_total_usd g = Ruralis.g_costo_total_ars g.
Proof.
  destruct (usd_product_ignores_exchange_rate (world_usd PyNone) scenario_world 1%Z
              scenario_request (ruralis_db (atrazina_usd 100)) (atrazina_usd 100))
    as [Hsame Hreg]; [reflexivity | discriminate | reflexivity |].
  split; [exact Hsame|]. apply Hreg. by vm_compute.
Defined.

(** ** Listing after writing *)

(** X13. The list requests show what the write requests stored.  After a
    registered application, [get_agroquimicos] lists the agrochemical with the
    remaining stock that the answer reported, and [get_gastos] lists, under
    the id that the answer reported, an expense row with the reported
    quantity and cost, next to every row it listed before; neither changes
    the store.  After a user is created, [get_users] lists that user under
    the returned id. *)
Theorem listings_show_writes :
  (∀ now id rq db s g db',
     request (Legacy.aplicar_agroquimico now id rq) db
       = (Ok (Legacy.AplicacionRegistrada s g), db') →
     ∃ ta tg a' rec,
       request Legacy.get_agroquimicos db' = (Ok (Legacy.AgroquimicosList ta), db')
       ∧ ta !! id = Some a'
       ∧ Legacy.cantidad a' = Legacy.stock_restante s
       ∧ request Legacy.get_gastos db' = (Ok (Legacy.GastosList tg), db')
       ∧ tg !! Legacy.g_id g = Some rec
       ∧ Legacy.cantidad_aplicada rec = Legacy.g_cantidad_aplicada g
       ∧ Legacy.costo_total rec = Legacy.g_costo_total g
       ∧ (∀ j r, Legacy.gastos db !! j = Some r → tg !! j = Some r))
  ∧
  (∀ w id rq db s g db',
     request (Ruralis.aplicar_agroquimico w id rq) db
       = (Ok (Ruralis.AplicacionRegistrada s g), db') →
     ∃ ta tg a' rec,
       request Ruralis.get_agroquimicos db' = (Ok (Ruralis.AgroquimicosList ta), db')
       ∧ ta !! id = Some a'
       ∧ Ruralis.cantidad a' = Ruralis.stock_restante s
       ∧ request Ruralis.get_gastos db' = (Ok (Ruralis.GastosList tg), db')
       ∧ tg !! Ruralis.g_id g = Some rec
       ∧ Ruralis.cantidad_aplicada rec = Ruralis.g_cantidad_aplicada g
       ∧ Ruralis.costo_total_ars rec = Ruralis.g_costo_total_ars g
       ∧ Ruralis.costo_total_usd rec = Ruralis.g_costo_total_usd g
       ∧ (∀ j r, Ruralis.gastos db !! j = Some r → tg !! j = Some r))
  ∧
  (∀ u db id v db',
     request (Legacy.create_user u) db = (Ok (Legacy.UsuarioCreado id v), db') →
     ∃ tu,
       request Legacy.get_users db' = (Ok (Legacy.UsersList tu), db')
       ∧ tu !! id = Some u
       ∧ v = u
       ∧ (∀ j r, Legacy.users db !! j = Some r → tu !! j = Some r)).
Proof.
  split; [|split].
  - intros now id rq db s g db' H. rewrite legacy_aplicar_eq in H.
    destruct (Legacy.agroquimicos db !! id) as [a|]; [|discriminate].
    cbn zeta in H. destruct (Qlt_le_dec _ _); [discriminate|].
    injection H as <- <- <-. do 4 eexists.
    split; [reflexivity|]. cbn. split; [apply lookup_insert_eq|].
    split; [reflexivity|]. split; [reflexivity|].
    split; [apply lookup_insert_eq|]. split; [reflexivity|]. split; [reflexivity|].
    intros j r Hj. cbn. rewrite lookup_insert_ne; [done|].
    intros Heq. rewrite <- Heq, next_id_fresh in Hj. discriminate.
  - intros w id rq db s g db' H. rewrite ruralis_aplicar_eq in H.
    destruct (Ruralis.agroquimicos db !! id) as [a|]; [|discriminate].
    cbn zeta in H. destruct (Qlt_le_dec _ _); [discriminate|].
    destruct (ruralis_usd _ _ _); [|discriminate].
    injection H as <- <- <-. do 4 eexists.
    split; [reflexivity|]. cbn. split; [apply lookup_insert_eq|].
    split; [reflexivity|]. split; [reflexivity|].
    split; [apply lookup_insert_eq|].
    split; [reflexivity|]. split; [reflexivity|]. split; [reflexivity|].
    intros j r Hj. cbn. rewrite lookup_insert_ne; [done|].
    intros Heq. rewrite <- Heq, next_id_fresh in Hj. discriminate.
  - intros u db id v db' H. rewrite legacy_create_user_eq in H.
    destruct (bool_decide _); [discriminate|].
    injection H as <- <- <-. eexists.
    split; [reflexivity|]. cbn. split; [apply lookup_insert_eq|].
    split; [reflexivity|].
    intros j r Hj. cbn. rewrite lookup_insert_ne; [done|].
    intros Heq. rewrite <- Heq, next_id_fresh in Hj. discriminate.
Qed.

Lemma listings_show_writes_witness :
  (∃ ta tg a' rec,
     request Legacy.get_agroquimicos legacy_db'
       = (Ok (Legacy.AgroquimicosList ta), legacy_db')
     ∧ ta !! 1%Z = Some a'
     ∧ Legacy.cantidad a' = Legacy.stock_restante legacy_stock
     ∧ request Legacy.get_gastos legacy_db' = (Ok (Legacy.GastosList tg), legacy_db')
     ∧ tg !! Legacy.g_id legacy_gasto = Some rec
     ∧ Legacy.cantidad_aplicada rec = Legacy.g_cantidad_aplicada legacy_gasto
     ∧ Legacy.costo_total rec = Legacy.g_costo_total legacy_gasto
     ∧ (∀ j r, Legacy.gastos (legacy_db (glifosato 100)) !! j = Some r →
               tg !! j = Some r))
  ∧
  (∃ ta tg a' rec,
     request Ruralis.get_agroquimicos scenario_db'
       = (Ok (Ruralis.AgroquimicosList ta), scenario_db')
     ∧ ta !! 1%Z = Some a'
     ∧ Ruralis.cantidad a' = Ruralis.stock_restante scenario_stock
     ∧ request Ruralis.get_gastos scenario_db'
       = (Ok (Ruralis.GastosList tg), scenario_db')
     ∧ tg !! Ruralis.g_id scenario_gasto = Some rec
     ∧ Ruralis.cantidad_aplicada rec = Ruralis.g_cantidad_aplicada scenario_gasto
     ∧ Ruralis.costo_total_ars rec = Ruralis.g_costo_total_ars scenario_gasto
     ∧ Ruralis.costo_total_usd rec = Ruralis.g_costo_total_usd scenario_gasto
     ∧ (∀ j r, Ruralis.gastos scenario_db !! j = Some r → tg !! j = Some r))
  ∧
  (∃ tu,
     request Legacy.get_users
         (snd (request (Legacy.create_user marta) two_users))
       = (Ok (Legacy.UsersList tu), snd (request (Legacy.create_user marta) two_users))
     ∧ tu !! 3%Z = Some marta
     ∧ marta = marta
     ∧ (∀ j r, Legacy.users two_users !! j = Some r → tu !! j = Some r)).
Proof.
  destruct listings_show_writes as (HL & HR & HU).
  split; [|split].
  - apply (HL "2025-03-01 10:00:00" 1%Z legacy_request (legacy_db (glifosato 100))
             legacy_stock legacy_gasto legacy_db').
    vm_compute. reflexivity.
  - apply (HR scenario_world 1%Z scenario_request scenario_db
             scenario_stock scenario_gasto scenario_db').
    vm_compute. reflexivity.
  - apply (HU marta two_users 3%Z marta
             (snd (request (Legacy.create_user marta) two_users))).
    vm_compute. reflexivity.
Defined.

(** ** The two applications side by side *)

(** X14. On agrochemicals with the same quantity and unit price and requests
    with the same dose and area, the two applications take the same stock
    decision; when both register the application they report the same
    remaining stock and the same quantity applied.  The costs differ by the
    division that only [src/main.py] makes: it reports
    [precio_unitario * (quantity / 1000)], where [src/ruralis/main.py] reports
    [precio_unitario * quantity] as the cost in ARS. *)
Theorem legacy_and_ruralis_agree :
  ∀ now w id1 id2 rq1 rq2 db1 db2 a1 a2,
    Legacy.agroquimicos db1 !! id1 = Some a1 →
    Ruralis.agroquimicos db2 !! id2 = Some a2 →
    Legacy.cantidad a1 = Ruralis.cantidad a2 →
    Legacy.precio_unitario a1 = Ruralis.precio_unitario a2 →
    Legacy.dosis_por_ha rq1 = Ruralis.dosis rq2 →
    Legacy.hectareas rq1 = Ruralis.hectareas rq2 →
    (request (Legacy.aplicar_agroquimico now id1 rq1) db1
       = (Ok (Legacy.Error "Stock insuficiente"), db1)
     ↔ request (Ruralis.aplicar_agroquimico w id2 rq2) db2
       = (Ok (Ruralis.Error "Stock insuficiente"), db2))
    ∧ (∀ s1 g1 db1' s2 g2 db2',
         request (Legacy.aplicar_agroquimico now id1 rq1) db1
           = (Ok (Legacy.AplicacionRegistrada s1 g1), db1') →
         request (Ruralis.aplicar_agroquimico w id2 rq2) db2
           = (Ok (Ruralis.AplicacionRegistrada s2 g2), db2') →
         Legacy.stock_restante s1 = Ruralis.stock_restante s2
         ∧ Legacy.g_cantidad_aplicada g1 = Ruralis.g_cantidad_aplicada g2
         ∧ Legacy.g_costo_total g1
           = Legacy.precio_unitario a1 * (Legacy.g_cantidad_aplicada g1 / 1000)
         ∧ Ruralis.g_costo_total_ars g2
           = Legacy.precio_unitario a1 * Legacy.g_cantidad_aplicada g1).
Proof.
  intros now w id1 id2 rq1 rq2 db1 db2 a1 a2 Ha1 Ha2 Hq Hp Hd Hh.
  rewrite legacy_aplicar_eq, ruralis_aplicar_eq, Ha1, Ha2. cbn zeta.
  rewrite Hq, Hp, Hd, Hh.
  destruct (Qlt_le_dec _ _) as [Hlt|Hle].
  - split; [done|]. intros; discriminate.
  - split.
    + split; [discriminate|].
      destruct (ruralis_usd _ _ _); discriminate.
    + intros s1 g1 db1' s2 g2 db2' [= <- <- <-].
      destruct (ruralis_usd _ _ _); [|discriminate].
      intros [= <- <- <-]. cbn. repeat split.
Qed.

(** On 5 l in stock both applications refuse the 20 l of the first scenario;
    on 100 l both register it, with 80 l left and 20 l applied. *)
Lemma legacy_and_ruralis_agree_witness :
  request (Ruralis.aplicar_agroquimico scenario_world 1 scenario_request)
      (ruralis_db (glifosato_ars 5))
    = (Ok (Ruralis.Error "Stock insuficiente"), ruralis_db (glifosato_ars 5))
  ∧ (Legacy.stock_restante legacy_stock = Ruralis.stock_restante scenario_stock
     ∧ Legacy.g_cantidad_aplicada legacy_gasto
       = Ruralis.g_cantidad_aplicada scenario_gasto
     ∧ Legacy.g_costo_total legacy_gasto
       = 50 * (Legacy.g_cantidad_aplicada legacy_gasto / 1000)
     ∧ Ruralis.g_costo_total_ars scenario_gasto
       = 50 * Legacy.g_cantidad_aplicada legacy_gasto).
Proof.
  split.
  - destruct (legacy_and_ruralis_agree "2025-03-01 10:00:00" scenario_world 1%Z 1%Z
                legacy_request scenario_request (legacy_db (glifosato 5))
                (ruralis_db (glifosato_ars 5)) (glifosato 5) (glifosato_ars 5)
                eq_refl eq_refl eq_refl eq_refl eq_refl eq_refl)
      as [Hdec _].
    apply (proj1 Hdec). vm_compute. reflexivity.
  - destruct (legacy_and_ruralis_agree "2025-03-01 10:00:00" scenario_world 1%Z 1%Z
                legacy_request scenario_request (legacy_db (glifosato 100))
                scenario_db (glifosato 100) (glifosato_ars 100)
                eq_refl eq_refl eq_refl eq_refl eq_refl eq_refl)
      as [_ Hreg].
    apply (Hreg legacy_stock legacy_gasto legacy_db'
             scenario_stock scenario_gasto scenario_db');
      vm_compute; reflexivity.
Defined.

(** ** Only the quantity of an agrochemical changes *)

Lemma legacy_step_fields i o db a :
  Legacy.agroquimicos db !! i = Some a → legacy_spares i o →
  ∃ a',
    Legacy.agroquimicos (snd (request (legacy_handler o) db)) !! i = Some a'
    ∧ Legacy.nombre a' = Legacy.nombre a
    ∧ Legacy.unidad a' = Legacy.unidad a
    ∧ Legacy.precio_unitario a' = Legacy.precio_unitario a
    ∧ (legacy_no_apply i o → a' = a).
Proof.
  intros Ha Hsp. destruct o; cbn [legacy_handler].
  - rewrite legacy_create_user_eq. destruct (bool_decide _); exists a; done.
  - by exists a.
  - rewrite legacy_delete_user_eq.
    destruct (Legacy.users db !! user_id); exists a; done.
  - rewrite legacy_create_agroquimico_eq. exists a. split; [|done]. cbn.
    rewrite lookup_insert_ne; [done|].
    intros Heq. rewrite <- Heq, next_id_fresh in Ha. discriminate.
  - by exists a.
  - rewrite legacy_delete_agroquimico_eq. cbn in Hsp.
    destruct (Legacy.agroquimicos db !! agroquimico_id); [|by exists a].
    exists a. split; [|done]. cbn. by rewrite lookup_delete_ne.
  - rewrite legacy_aplicar_eq.
    destruct (Legacy.agroquimicos db !! agroquimico_id) as [b|] eqn:Hb;
      [|by exists a].
    cbn zeta. destruct (Qlt_le_dec _ _); [by exists a|]. cbn.
    destruct (decide (agroquimico_id = i)) as [->|Hne].
    + rewrite lookup_insert_eq. eexists. split; [reflexivity|].
      assert (b = a) as -> by congruence. cbn. by repeat split.
    + rewrite lookup_insert_ne by done. by exists a.
  - by exists a.
Qed.

Lemma ruralis_step_fields i o db a :
  Ruralis.agroquimicos db !! i = Some a →
  ∃ a',
    Ruralis.agroquimicos (snd (request (ruralis_handler o) db)) !! i = Some a'
    ∧ Ruralis.nombre a' = Ruralis.nombre a
    ∧ Ruralis.unidad a' = Ruralis.unidad a
    ∧ Ruralis.precio_unitario a' = Ruralis.precio_unitario a
    ∧ Ruralis.moneda a' = Ruralis.moneda a
    ∧ (ruralis_no_apply i o → a' = a).
Proof.
  intros Ha. destruct o; cbn [ruralis_handler].
  - rewrite ruralis_create_agroquimico_eq. exists a. split; [|done]. cbn.
    rewrite lookup_insert_ne; [done|].
    intros Heq. rewrite <- Heq, next_id_fresh in Ha. discriminate.
  - by exists a.
  - rewrite ruralis_aplicar_eq.
    destruct (Ruralis.agroquimicos db !! agroquimico_id) as [b|] eqn:Hb;
      [|by exists a].
    cbn zeta. destruct (Qlt_le_dec _ _); [by exists a|].
    destruct (ruralis_usd _ _ _); [|by exists a]. cbn.
    destruct (decide (agroquimico_id = i)) as [->|Hne].
    + rewrite lookup_insert_eq. eexists. split; [reflexivity|].
      assert (b = a) as -> by congruence. cbn. by repeat split.
    + rewrite lookup_insert_ne by done. by exists a.
  - by exists a.
  - rewrite get_costo_total_raises. by exists a.
Qed.

(** X16. No request changes the name, the unit, the unit price or the currency
    of a stored agrochemical: along any sequence of requests that does not
    delete it, the row keeps those fields; and its quantity changes only
    through apply requests on its own id: a sequence without such a request
    leaves the whole row as it was. *)
Theorem only_quantity_changes :
  (∀ i ops db a,
     Legacy.agroquimicos db !! i = Some a → Forall (legacy_spares i) ops →
     ∃ a',
       Legacy.agroquimicos (legacy_run ops db) !! i = Some a'
       ∧ Legacy.nombre a' = Legacy.nombre a
       ∧ Legacy.unidad a' = Legacy.unidad a
       ∧ Legacy.precio_unitario a' = Legacy.precio_unitario a
       ∧ (Forall (legacy_no_apply i) ops → a' = a))
  ∧
  (∀ i ops db a,
     Ruralis.agroquimicos db !! i = Some a →
     ∃ a',
       Ruralis.agroquimicos (ruralis_run ops db) !! i = Some a'
       ∧ Ruralis.nombre a' = Ruralis.nombre a
       ∧ Ruralis.unidad a' = Ruralis.unidad a
       ∧ Ruralis.precio_unitario a' = Ruralis.precio_unitario a
       ∧ Ruralis.moneda a' = Ruralis.moneda a
       ∧ (Forall (ruralis_no_apply i) ops → a' = a)).
Proof.
  split.
  - intros i ops db a Ha Hops. revert db a Ha.
    induction Hops as [|o ops Ho _ IH]; intros db a Ha; [by exists a|].
    cbn. destruct (legacy_step_fields i o db a Ha Ho)
      as (a1 & Ha1 & Hn1 & Hu1 & Hp1 & He1).
    destruct (IH _ a1 Ha1) as (a2 & Ha2 & Hn2 & Hu2 & Hp2 & He2).
    exists a2. split; [exact Ha2|].
    split; [congruence|]. split; [congruence|]. split; [congruence|].
    intros Hno. apply Forall_cons in Hno as [Hno1 Hno2].
    rewrite (He2 Hno2). by apply He1.
  - intros i ops. induction ops as [|o ops IH]; intros db a Ha; [by exists a|].
    cbn. destruct (ruralis_step_fields i o db a Ha)
      as (a1 & Ha1 & Hn1 & Hu1 & Hp1 & Hm1 & He1).
    destruct (IH _ a1 Ha1) as (a2 & Ha2 & Hn2 & Hu2 & Hp2 & Hm2 & He2).
    exists a2. split; [exact Ha2|].
    split; [congruence|]. split; [congruence|]. split; [congruence|].
    split; [congruence|].
    intros Hno. apply Forall_cons in Hno as [Hno1 Hno2].
    rewrite (He2 Hno2). by apply He1.
Qed.

Lemma only_quantity_changes_witness :
  (∃ a',
     Legacy.agroquimicos (legacy_run legacy_tail (legacy_db (glifosato 100))) !! 1%Z
       = Some a'
     ∧ Legacy.nombre a' = "Glifosato"
     ∧ Legacy.unidad a' = "L"
     ∧ Legacy.precio_unitario a' = 50)
  ∧ Legacy.agroquimicos (legacy_run legacy_others (legacy_db (glifosato 100))) !! 1%Z
      = Some (glifosato 100)
  ∧ (∃ a',
       Ruralis.agroquimicos (ruralis_run ruralis_tail scenario_db) !! 1%Z = Some a'
       ∧ Ruralis.nombre a' = "Glifosato"
       ∧ Ruralis.unidad a' = "L"
       ∧ Ruralis.precio_unitario a' = 50
       ∧ Ruralis.moneda a' = "ARS")
  ∧ Ruralis.agroquimicos (ruralis_run ruralis_others scenario_db) !! 1%Z
      = Some (glifosato_ars 100).
Proof.
  destruct only_quantity_changes as [HL HR].
  split.
  { destruct (HL 1%Z legacy_tail (legacy_db (glifosato 100)) (glifosato 100))
      as (a' & Ha' & Hn & Hu & Hp & _); [reflexivity| |by exists a'].
    unfold legacy_tail.
    repeat (apply Forall_cons; split; [cbn; by vm_compute|]).
    apply Forall_nil_2. }
  split.
  { destruct (HL 1%Z legacy_others (legacy_db (glifosato 100)) (glifosato 100))
      as (a' & Ha' & _ & _ & _ & He); [reflexivity| |].
    - unfold legacy_others.
      repeat (apply Forall_cons; split; [cbn; by vm_compute|]).
      apply Forall_nil_2.
    - rewrite Ha'. f_equal. apply He. unfold legacy_others.
      repeat (apply Forall_cons; split; [cbn; by vm_compute|]).
      apply Forall_nil_2. }
  split.
  { destruct (HR 1%Z ruralis_tail scenario_db (glifosato_ars 100))
      as (a' & Ha' & Hn & Hu & Hp & Hm & _); [reflexivity|by exists a']. }
  destruct (HR 1%Z ruralis_others scenario_db (glifosato_ars 100))
    as (a' & Ha' & _ & _ & _ & _ & He); [reflexivity|].
  rewrite Ha'. f_equal. apply He. unfold ruralis_others.
  repeat (apply Forall_cons; split; [cbn; by vm_compute|]).
  apply Forall_nil_2.
Defined.

(** ** Quantities and costs in the expense table *)

Lemma legacy_step_books o db :
  legacy_sensible o → legacy_books_ok db →
  legacy_books_ok (snd (request (legacy_handler o) db)).
Proof.
  unfold legacy_books_ok. intros Hs [Hp Hg]. destruct o; cbn [legacy_handler].
  - rewrite legacy_create_user_eq. by destruct (bool_decide _).
  - done.
  - rewrite legacy_delete_user_eq. by destruct (Legacy.users db !! user_id).
  - rewrite legacy_create_agroquimico_eq. cbn. split; [|done].
    by apply map_Forall_insert_2.
  - done.
  - rewrite legacy_delete_agroquimico_eq.
    destruct (Legacy.agroquimicos db !! agroquimico_id); [|done].
    cbn. split; [|done]. by apply map_Forall_delete.
  - rewrite legacy_aplicar_eq.
    destruct (Legacy.agroquimicos db !! agroquimico_id) as [a|] eqn:Ha; [|done].
    cbn zeta. destruct (Qlt_le_dec _ _); [done|]. cbn.
    pose proof (Hp _ _ Ha) as Hpa. cbn in Hpa, Hs. destruct Hs as [Hd Hh].
    assert (Hn : 0 <= Legacy.dosis_por_ha request0 * Legacy.hectareas request0)
      by nra.
    split; apply map_Forall_insert_2; try done; cbn.
    split; [exact Hn|].
    set (n := Legacy.dosis_por_ha request0 * Legacy.hectareas request0) in *.
    clearbody n.
    assert (Hk : 0 <= n / 1000) by (apply Qle_shift_div_l; [reflexivity | lra]).
    nra.
  - done.
Qed.

Lemma ruralis_step_books o db :
  ruralis_sensible o → ruralis_books_ok db →
  ruralis_books_ok (snd (request (ruralis_handler o) db)).
Proof.
  unfold ruralis_books_ok. intros Hs [Hp Hg]. destruct o; cbn [ruralis_handler].
  - rewrite ruralis_create_agroquimico_eq. cbn. split; [|done].
    by apply map_Forall_insert_2.
  - done.
  - rewrite ruralis_aplicar_eq.
    destruct (Ruralis.agroquimicos db !! agroquimico_id) as [a|] eqn:Ha; [|done].
    cbn zeta. destruct (Qlt_le_dec _ _); [done|].
    destruct (ruralis_usd _ _ _); [|done]. cbn.
    pose proof (Hp _ _ Ha) as Hpa. cbn in Hpa, Hs. destruct Hs as [Hd Hh].
    assert (Hn : 0 <= Ruralis.dosis request0 * Ruralis.hectareas request0) by nra.
    split; apply map_Forall_insert_2; try done; cbn.
    split; [exact Hn|].
    set (n := Ruralis.dosis request0 * Ruralis.hectareas request0) in *.
    clearbody n. nra.
  - done.
  - by rewrite get_costo_total_raises.
Qed.

(** X15. With sensible inputs the expense table stays sensible: if unit prices
    are non-negative and every expense row has a non-negative quantity and a
    non-negative cost, this is still so after any sequence of requests in
    which agrochemicals are created with a non-negative unit price and
    applications have a positive dose and a positive area. *)
Theorem expense_table_stays_sensible :
  (∀ ops db,
     legacy_books_ok db → Forall legacy_sensible ops →
     legacy_books_ok (legacy_run ops db))
  ∧
  (∀ ops db,
     ruralis_books_ok db → Forall ruralis_sensible ops →
     ruralis_books_ok (ruralis_run ops db)).
Proof.
  split.
  - intros ops db Hok Hops. revert db Hok.
    induction Hops as [|o ops Ho _ IH]; intros db Hok; [exact Hok|].
    cbn. apply IH. by apply legacy_step_books.
  - intros ops db Hok Hops. revert db Hok.
    induction Hops as [|o ops Ho _ IH]; intros db Hok; [exact Hok|].
    cbn. apply IH. by apply ruralis_step_books.
Qed.

Lemma expense_table_stays_sensible_witness :
  legacy_books_ok (legacy_run legacy_session empty_legacy)
  ∧ ruralis_books_ok (ruralis_run ruralis_session empty_ruralis).
Proof.
  split.
  - apply (proj1 expense_table_stays_sensible).
    + split; apply map_Forall_empty.
    + unfold legacy_session.
      repeat (apply Forall_cons; split; [cbn; try split; by vm_compute|]).
      apply Forall_nil_2.
  - apply (proj2 expense_table_stays_sensible).
    + split; apply map_Forall_empty.
    + unfold ruralis_session.
      repeat (apply Forall_cons; split; [cbn; try split; by vm_compute|]).
      apply Forall_nil_2.
Defined.
